(** * The screenshot-translate popup (src/browser-extension/popup/index.tsx)

    A shallow embedding of the popup's pipeline: the credential store, the
    clipboard image source, the two remote clients and the controller
    [handleScreenshotTranslate], followed by the properties of the
    specification that were checked against it.

    JavaScript strings are sequences of UTF-16 code units ([list N]); the
    values that [response.json()] hands to the program are modelled by
    [JsVal]; objects are finite maps from property names to values.  The
    browser (clipboard, FileReader, fetch, ...) is a parameter [Env] of every
    effectful function; effects are threaded through a state, error and
    trace monad [M]. *)

From Stdlib Require Import NArith.
From Stdlib Require Import Floats.SpecFloat.
From stdpp Require Import gmap list strings.

Set Warnings "-register-all".

(** ** JavaScript strings *)

Module JsString.

(** A string is its sequence of UTF-16 code units. *)
Definition jsstring : Type := list N.

(** Code units of an ASCII literal. *)
Definition u (s : string) : jsstring :=
  (fun a => Ascii.N_of_ascii a) <$> String.list_ascii_of_string s.

(** ToBoolean on a string: only the empty string is falsy. *)
Definition nonempty (s : jsstring) : bool :=
  match s with [] => false | _ :: _ => true end.

(** [s.startsWith(p)]. *)
Fixpoint startsWith (s p : jsstring) : bool :=
  match p, s with
  | [], _ => true
  | _ :: _, [] => false
  | b :: p', a :: s' => (a =? b)%N && startsWith s' p'
  end.

(** ECMAScript LineTerminator code points. *)
Definition is_line_terminator (c : N) : bool :=
  ((c =? 0x000A) || (c =? 0x000D) || (c =? 0x2028) || (c =? 0x2029))%N.

(** ECMAScript WhiteSpace and LineTerminator: what [trim] strips. *)
Definition is_white_space (c : N) : bool :=
  ((c =? 0x0009) || (c =? 0x000B) || (c =? 0x000C) || (c =? 0x0020)
   || (c =? 0x00A0) || (c =? 0x1680)
   || ((0x2000 <=? c) && (c <=? 0x200A))
   || (c =? 0x202F) || (c =? 0x205F) || (c =? 0x3000) || (c =? 0xFEFF))%N
  || is_line_terminator c.

Fixpoint trimStart (s : jsstring) : jsstring :=
  match s with
  | c :: s' => if is_white_space c then trimStart s' else s
  | [] => []
  end.

Definition trimEnd (s : jsstring) : jsstring :=
  reverse (trimStart (reverse s)).

(** [s.trim()]. *)
Definition trim (s : jsstring) : jsstring := trimEnd (trimStart s).

(** [s.replace(/^data:.+;base64,/, "")]: the match is anchored at the
    start, [.+] takes at least one code unit, none of them a line
    terminator, and is greedy, so the last feasible [;base64,] ends it.
    [after_dots seen s] is what is left of [s] after the longest match of
    [.+;base64,] ([seen]: a code unit was already taken by [.+]). *)
Fixpoint after_dots (seen : bool) (s : jsstring) : option jsstring :=
  match s with
  | [] => None
  | c :: s' =>
      let later := if is_line_terminator c then None else after_dots true s' in
      match later with
      | Some r => Some r
      | None =>
          if seen && startsWith s (u ";base64,")
          then Some (drop 8 s) else None
      end
  end.

Definition strip_data_url_prefix (s : jsstring) : jsstring :=
  if startsWith s (u "data:")
  then default s (after_dots false (drop 5 s))
  else s.

(** The code units [encodeURIComponent] leaves alone:
    A-Z a-z 0-9 - _ . ! ~ * ' ( ) *)
Definition is_uri_unreserved (c : N) : bool :=
  (((0x41 <=? c) && (c <=? 0x5A)) || ((0x61 <=? c) && (c <=? 0x7A))
   || ((0x30 <=? c) && (c <=? 0x39))
   || (c =? 0x2D) || (c =? 0x5F) || (c =? 0x2E) || (c =? 0x21)
   || (c =? 0x7E) || (c =? 0x2A) || (c =? 0x27) || (c =? 0x28)
   || (c =? 0x29))%N.

Definition hex_digit (n : N) : N :=
  (if n <? 10 then 0x30 + n else 0x41 + (n - 10))%N.

(** [%XX] for one octet. *)
Definition percent (b : N) : jsstring :=
  [0x25; hex_digit (b / 16); hex_digit (b mod 16)]%N.

(** The UTF-8 octets of a code point. *)
Definition utf8 (cp : N) : list N :=
  (if cp <? 0x80 then [cp]
   else if cp <? 0x800 then [0xC0 + cp / 0x40; 0x80 + cp mod 0x40]
   else if cp <? 0x10000 then
     [0xE0 + cp / 0x1000; 0x80 + (cp / 0x40) mod 0x40; 0x80 + cp mod 0x40]
   else
     [0xF0 + cp / 0x40000; 0x80 + (cp / 0x1000) mod 0x40;
      0x80 + (cp / 0x40) mod 0x40; 0x80 + cp mod 0x40])%N.

Definition is_high_surrogate (c : N) : bool := ((0xD800 <=? c) && (c <=? 0xDBFF))%N.
Definition is_low_surrogate (c : N) : bool := ((0xDC00 <=? c) && (c <=? 0xDFFF))%N.

(** [encodeURIComponent] on a string; [None] is the URIError raised on a
    surrogate that is not part of a pair. *)
Fixpoint uri_encode (s : jsstring) : option jsstring :=
  match s with
  | [] => Some []
  | c :: s' =>
      if is_uri_unreserved c then (c ::.) <$> uri_encode s'
      else if is_low_surrogate c then None
      else if is_high_surrogate c then
        match s' with
        | d :: s'' =>
            if is_low_surrogate d
            then
              let cp := (0x10000 + (c - 0xD800) * 0x400 + (d - 0xDC00))%N in
              (concat (percent <$> utf8 cp) ++.) <$> uri_encode s''
            else None
        | [] => None
        end
      else (concat (percent <$> utf8 c) ++.) <$> uri_encode s'
  end.

End JsString.
Export JsString.

(** ** JavaScript values and property access *)

(** The values reachable from a parsed JSON body, plus [undefined], which
    property access produces.  Numbers are IEEE doubles. *)
Inductive JsVal : Type :=
| JUndefined
| JNull
| JBool (b : bool)
| JNum (f : spec_float)
| JStr (s : jsstring)
| JArr (l : list JsVal)
| JObj (m : gmap jsstring JsVal).

(** ToBoolean. *)
Definition truthy (v : JsVal) : bool :=
  match v with
  | JUndefined | JNull => false
  | JBool b => b
  | JNum (S754_zero _) | JNum S754_nan => false
  | JNum _ => true
  | JStr s => nonempty s
  | JArr _ | JObj _ => true
  end.

Inductive JsError : Type :=
| TypeError        (* property read on null or undefined *)
| FetchError       (* fetch() rejected *)
| SyntaxError      (* response.json() rejected *)
| ReaderError      (* FileReader error event *)
| ClipboardError   (* navigator.clipboard.read() or getType() rejected *)
| URIError.        (* encodeURIComponent on an unpaired surrogate *)

(** A computation that returns or throws. *)
Inductive Result (A : Type) : Type :=
| Ok (a : A)
| Throw (e : JsError).
Arguments Ok {A} a.
Arguments Throw {A} e.

#[global] Instance Result_ret : MRet Result := fun A a => Ok a.
#[global] Instance Result_bind : MBind Result := fun A B f r =>
  match r with Ok a => f a | Throw e => Throw e end.

(** The property names the program reads.  None of them is defined on
    Object.prototype, Array.prototype, String.prototype, Number.prototype or
    Boolean.prototype, so reading one off a value without that own property
    gives [undefined]. *)
Inductive Field : Type :=
| Candidates | Content | Parts | Text | TranslateResult | Tgt.

Definition field_name (f : Field) : jsstring :=
  match f with
  | Candidates => u "candidates"
  | Content => u "content"
  | Parts => u "parts"
  | Text => u "text"
  | TranslateResult => u "translateResult"
  | Tgt => u "tgt"
  end.

(** [v.f] *)
Definition get_field (f : Field) (v : JsVal) : Result JsVal :=
  match v with
  | JUndefined | JNull => Throw TypeError
  | JObj m => Ok (default JUndefined (m !! field_name f))
  | JBool _ | JNum _ | JStr _ | JArr _ => Ok JUndefined
  end.

(** [v[0]] *)
Definition get_index0 (v : JsVal) : Result JsVal :=
  match v with
  | JUndefined | JNull => Throw TypeError
  | JArr l => Ok (default JUndefined (head l))
  | JStr s => Ok (match s with c :: _ => JStr [c] | [] => JUndefined end)
  | JObj m => Ok (default JUndefined (m !! u "0"))
  | JBool _ | JNum _ => Ok JUndefined
  end.

(** [a && b]: [b] is evaluated only when [a] is truthy. *)
Definition js_and (a b : Result JsVal) : Result JsVal :=
  match a with
  | Ok v => if truthy v then b else Ok v
  | Throw e => Throw e
  end.

#[local] Set Warnings "-postfix-notation-not-level-1".
Notation "r '.>' f" := (r ≫= get_field f) (at level 40, left associativity).
Notation "r '.[0]'" := (r ≫= get_index0) (at level 40, left associativity).
Notation "a 'AND' b" := (js_and a b) (at level 50, left associativity).

(** ToString, as [encodeURIComponent] applies it to its argument.  An array
    joins its elements with commas, [null] and [undefined] elements giving
    the empty string.  A parsed object has no callable own property, so it
    prints as [[object Object]] through Object.prototype.toString unless an
    own [toString] property hides that method, in which case the conversion
    throws.  [number_toString] is Number::toString. *)
Fixpoint ToString (number_toString : spec_float -> jsstring) (v : JsVal)
  : Result jsstring :=
  match v with
  | JUndefined => Ok (u "undefined")
  | JNull => Ok (u "null")
  | JBool true => Ok (u "true")
  | JBool false => Ok (u "false")
  | JNum f => Ok (number_toString f)
  | JStr s => Ok s
  | JArr l =>
      (fix join (l : list JsVal) : Result jsstring :=
         match l with
         | [] => Ok []
         | x :: rest =>
             sx ← match x with
                  | JUndefined | JNull => Ok []
                  | _ => ToString number_toString x
                  end;
             match rest with
             | [] => Ok sx
             | _ :: _ => srest ← join rest; Ok (sx ++ u "," ++ srest)
             end
         end) l
  | JObj m =>
      match m !! u "toString" with
      | Some _ => Throw TypeError
      | None => Ok (u "[object Object]")
      end
  end.

(** [encodeURIComponent(v)] *)
Definition encodeURIComponent (number_toString : spec_float -> jsstring)
    (v : JsVal) : Result jsstring :=
  s ← ToString number_toString v;
  match uri_encode s with
  | Some encoded => Ok encoded
  | None => Throw URIError
  end.

(** ** String constants of the source *)

(* "gemini_api_key" *)
Definition GEMINI_KEY_STORAGE : jsstring := u "gemini_api_key".

(* "未填写 Gemini API Key" *)
Definition NO_KEY_TEXT : jsstring :=
  [0x672A; 0x586B; 0x5199]%N ++ u " Gemini API Key".

(* "未能识别图片文字" *)
Definition NOT_RECOGNIZED_TEXT : jsstring :=
  [0x672A; 0x80FD; 0x8BC6; 0x522B; 0x56FE; 0x7247; 0x6587; 0x5B57]%N.

(* "翻译失败" *)
Definition TRANSLATE_FAILED_TEXT : jsstring :=
  [0x7FFB; 0x8BD1; 0x5931; 0x8D25]%N.

(* "请识别图片中的所有中文和英文文本" *)
Definition PROMPT_TEXT : jsstring :=
  [0x8BF7; 0x8BC6; 0x522B; 0x56FE; 0x7247; 0x4E2D; 0x7684; 0x6240; 0x6709;
   0x4E2D; 0x6587; 0x548C; 0x82F1; 0x6587; 0x6587; 0x672C]%N.

(* "获取剪贴板图片失败，请确认已授权浏览器访问剪贴板，并使用新版 Chrome。" *)
Definition CLIPBOARD_FAILED_MSG : jsstring :=
  [0x83B7; 0x53D6; 0x526A; 0x8D34; 0x677F; 0x56FE; 0x7247; 0x5931; 0x8D25;
   0xFF0C; 0x8BF7; 0x786E; 0x8BA4; 0x5DF2; 0x6388; 0x6743; 0x6D4F; 0x89C8;
   0x5668; 0x8BBF; 0x95EE; 0x526A; 0x8D34; 0x677F; 0xFF0C; 0x5E76; 0x4F7F;
   0x7528; 0x65B0; 0x7248]%N ++ u " Chrome" ++ [0x3002]%N.

(* "请先在设置中填写 Gemini API Key！" *)
Definition MISSING_KEY_MSG : jsstring :=
  [0x8BF7; 0x5148; 0x5728; 0x8BBE; 0x7F6E; 0x4E2D; 0x586B; 0x5199]%N
  ++ u " Gemini API Key" ++ [0xFF01]%N.

(* "未检测到剪贴板中的图片，请用 Win+Shift+S 截图，然后再点击按钮。" *)
Definition NO_IMAGE_MSG : jsstring :=
  [0x672A; 0x68C0; 0x6D4B; 0x5230; 0x526A; 0x8D34; 0x677F; 0x4E2D; 0x7684;
   0x56FE; 0x7247; 0xFF0C; 0x8BF7; 0x7528]%N ++ u " Win+Shift+S "
  ++ [0x622A; 0x56FE; 0xFF0C; 0x7136; 0x540E; 0x518D; 0x70B9; 0x51FB; 0x6309;
      0x94AE; 0x3002]%N.

(* "Gemini API Key 已保存！" *)
Definition KEY_SAVED_MSG : jsstring :=
  u "Gemini API Key " ++ [0x5DF2; 0x4FDD; 0x5B58; 0xFF01]%N.

(** ** Reading the two response bodies *)

(** Lines 40-50 of the source: the guard of [recognizeImageWithGemini] and
    its two returns. *)
Definition recognize_response (data : JsVal) : Result JsVal :=
  guard ← Ok data
          AND Ok data .> Candidates
          AND Ok data .> Candidates .[0]
          AND Ok data .> Candidates .[0] .> Content
          AND Ok data .> Candidates .[0] .> Content .> Parts
          AND Ok data .> Candidates .[0] .> Content .> Parts .[0] .> Text;
  if truthy guard
  then Ok data .> Candidates .[0] .> Content .> Parts .[0] .> Text
  else Ok (JStr NOT_RECOGNIZED_TEXT).

(** Lines 88-91 of the source: the guard of [translateText] and its two
    returns. *)
Definition translate_response (data : JsVal) : Result JsVal :=
  guard ← Ok data
          AND Ok data .> TranslateResult
          AND Ok data .> TranslateResult .[0]
          AND Ok data .> TranslateResult .[0] .[0];
  if truthy guard
  then Ok data .> TranslateResult .[0] .[0] .> Tgt
  else Ok (JStr TRANSLATE_FAILED_TEXT).

(** The first five conjuncts of the guard of [recognizeImageWithGemini]:
    the value of [data.candidates[0].content.parts] when they all hold, the
    first falsy link otherwise. *)
Definition five_guards (data : JsVal) : Result JsVal :=
  Ok data
  AND Ok data .> Candidates
  AND Ok data .> Candidates .[0]
  AND Ok data .> Candidates .[0] .> Content
  AND Ok data .> Candidates .[0] .> Content .> Parts.

(** ** Paths through a response, as the specification speaks of them *)

Inductive Step : Type :=
| Dot (f : Field)
| Index0.

(** A link that is present: an own property of an object, or the first
    element of an array (or of a string). *)
Definition present (s : Step) (v : JsVal) : option JsVal :=
  match s, v with
  | Dot f, JObj m => m !! field_name f
  | Index0, JArr l => head l
  | Index0, JObj m => m !! u "0"
  | Index0, JStr (c :: _) => Some (JStr [c])
  | _, _ => None
  end.

(** The value at the end of a path, when every link is present. *)
Fixpoint descend (path : list Step) (v : JsVal) : option JsVal :=
  match path with
  | [] => Some v
  | s :: path' =>
      match present s v with
      | Some x => descend path' x
      | None => None
      end
  end.

(** [candidates[0].content.parts[0].text] *)
Definition TEXT_PATH : list Step :=
  [Dot Candidates; Index0; Dot Content; Dot Parts; Index0; Dot Text].

(** [translateResult[0][0].tgt] *)
Definition TGT_PATH : list Step :=
  [Dot TranslateResult; Index0; Index0; Dot Tgt].

(** ** The browser and the popup's state *)

Record Blob : Type := { blob_type : jsstring; blob_bytes : list N }.

(** A ClipboardItem: its type tags in order and [getType] ([None]: the
    promise rejects). *)
Record ClipboardItem : Type :=
  { types : list jsstring; getType : jsstring -> option Blob }.

(** The second argument of [fetch]; [body] is the value handed to
    [JSON.stringify]. *)
Record RequestInit : Type :=
  { method : jsstring; headers : list (jsstring * jsstring); body : JsVal }.

Record Request : Type := { url : jsstring; init : option RequestInit }.

(** What a [fetch] followed by [response.json()] can do: the fetch rejects,
    or it resolves and the body parses as JSON or does not. *)
Inductive FetchResult : Type :=
| Rejected
| Resolved (json : option JsVal).

(** The platform the popup runs on. *)
Record Env : Type := {
  (* navigator.clipboard.read(); None: it throws (denied or unsupported) *)
  clipboard_read : option (list ClipboardItem);
  (* FileReader.readAsDataURL: reader.result at loadend; None: error event *)
  readAsDataURL : Blob -> option jsstring;
  (* URL.createObjectURL *)
  createObjectURL : Blob -> jsstring;
  (* Number::toString, used when a number is converted to a string *)
  number_toString : spec_float -> jsstring;
  (* the network *)
  fetch_result : Request -> FetchResult
}.

Inductive Tab : Type := main | settings.

(** The seven [useState] cells of [Popup].  [recognizedText] and
    [translatedText] are declared [string], but receive whatever the response
    readers return. *)
Record PopupState : Type := {
  tab : Tab;
  imageSrc : option jsstring;
  recognizedText : JsVal;
  translatedText : JsVal;
  loading : bool;
  apiKey : jsstring;
  apiKeyInput : jsstring
}.

(** The initial values passed to [useState]. *)
Definition initial_popup : PopupState :=
  {| tab := main; imageSrc := None; recognizedText := JStr [];
     translatedText := JStr []; loading := false; apiKey := [];
     apiKeyInput := [] |}.

(** One call of a state setter. *)
Inductive StateUpdate : Type :=
| SetTab (t : Tab)
| SetImageSrc (src : option jsstring)
| SetRecognizedText (v : JsVal)
| SetTranslatedText (v : JsVal)
| SetLoading (b : bool)
| SetApiKey (k : jsstring)
| SetApiKeyInput (k : jsstring).

Definition apply_update (upd : StateUpdate) (s : PopupState) : PopupState :=
  match upd with
  | SetTab t =>
      {| tab := t; imageSrc := imageSrc s; recognizedText := recognizedText s;
         translatedText := translatedText s; loading := loading s;
         apiKey := apiKey s; apiKeyInput := apiKeyInput s |}
  | SetImageSrc src =>
      {| tab := tab s; imageSrc := src; recognizedText := recognizedText s;
         translatedText := translatedText s; loading := loading s;
         apiKey := apiKey s; apiKeyInput := apiKeyInput s |}
  | SetRecognizedText v =>
      {| tab := tab s; imageSrc := imageSrc s; recognizedText := v;
         translatedText := translatedText s; loading := loading s;
         apiKey := apiKey s; apiKeyInput := apiKeyInput s |}
  | SetTranslatedText v =>
      {| tab := tab s; imageSrc := imageSrc s; recognizedText := recognizedText s;
         translatedText := v; loading := loading s;
         apiKey := apiKey s; apiKeyInput := apiKeyInput s |}
  | SetLoading b =>
      {| tab := tab s; imageSrc := imageSrc s; recognizedText := recognizedText s;
         translatedText := translatedText s; loading := b;
         apiKey := apiKey s; apiKeyInput := apiKeyInput s |}
  | SetApiKey k =>
      {| tab := tab s; imageSrc := imageSrc s; recognizedText := recognizedText s;
         translatedText := translatedText s; loading := loading s;
         apiKey := k; apiKeyInput := apiKeyInput s |}
  | SetApiKeyInput k =>
      {| tab := tab s; imageSrc := imageSrc s; recognizedText := recognizedText s;
         translatedText := translatedText s; loading := loading s;
         apiKey := apiKey s; apiKeyInput := k |}
  end.

(** What is mutable: the component state and the extension's localStorage. *)
Record World : Type := {
  popup : PopupState;
  localStorage : gmap jsstring jsstring
}.

(** The observable actions of a run, in the order they happen. *)
Inductive Event : Type :=
| State (upd : StateUpdate)
| Alert (msg : jsstring)
| StorageSetItem (key value : jsstring)
| ClipboardRead
| ClipboardGetType (type : jsstring)
| FileRead (blob : Blob)
| ObjectURL (blob : Blob)
| Fetch (req : Request).

(** ** The effect monad *)

(** A computation reads and writes the world, emits events, and returns or
    throws. *)
Definition M (A : Type) : Type := World -> Result A * World * list Event.

(** Projections of a finished computation. *)
Definition result_of {A : Type} (x : Result A * World * list Event) : Result A := x.1.1.
Definition world_of {A : Type} (x : Result A * World * list Event) : World := x.1.2.
Definition trace_of {A : Type} (x : Result A * World * list Event) : list Event := x.2.

#[global] Instance M_ret : MRet M := fun A a w => (Ok a, w, []).

(** Sequencing ([await] and [;]): the second computation runs in the world
    the first one left, unless the first one threw. *)
#[global] Instance M_bind : MBind M := fun A B k m w =>
  let x := m w in
  match result_of x with
  | Ok a =>
      let y := k a (world_of x) in
      (result_of y, world_of y, trace_of x ++ trace_of y)
  | Throw e => (Throw e, world_of x, trace_of x)
  end.

Definition throw {A : Type} (e : JsError) : M A := fun w => (Throw e, w, []).

Definition emit (ev : Event) : M unit := fun w => (Ok tt, w, [ev]).

(** [try { body } catch (e) { handler }] *)
Definition try_catch {A : Type} (body : M A) (handler : JsError -> M A) : M A :=
  fun w =>
    let x := body w in
    match result_of x with
    | Ok a => x
    | Throw e =>
        let y := handler e (world_of x) in
        (result_of y, world_of y, trace_of x ++ trace_of y)
    end.

(** A pure computation that may throw, run inside [M]. *)
Definition lift {A : Type} (r : Result A) : M A := fun w => (r, w, []).

Definition update_world (upd : StateUpdate) (w : World) : World :=
  {| popup := apply_update upd (popup w); localStorage := localStorage w |}.

Definition setState (upd : StateUpdate) : M unit := fun w =>
  (Ok tt, update_world upd w, [State upd]).

Definition setTab (t : Tab) : M unit := setState (SetTab t).
Definition setImageSrc (src : option jsstring) : M unit := setState (SetImageSrc src).
Definition setRecognizedText (v : JsVal) : M unit := setState (SetRecognizedText v).
Definition setTranslatedText (v : JsVal) : M unit := setState (SetTranslatedText v).
Definition setLoading (b : bool) : M unit := setState (SetLoading b).
Definition setApiKey (k : jsstring) : M unit := setState (SetApiKey k).
Definition setApiKeyInput (k : jsstring) : M unit := setState (SetApiKeyInput k).

(** The state as the handler's closure sees it. *)
Definition current_state : M PopupState := fun w => (Ok (popup w), w, []).

Definition alert (msg : jsstring) : M unit := emit (Alert msg).

(** [localStorage.setItem] and [localStorage.getItem]. *)
Definition localStorage_setItem (key value : jsstring) : M unit := fun w =>
  (Ok tt,
   {| popup := popup w; localStorage := <[key := value]> (localStorage w) |},
   [StorageSetItem key value]).

Definition localStorage_getItem (key : jsstring) : M (option jsstring) := fun w =>
  (Ok (localStorage w !! key), w, []).

(** ** The program *)

Definition GEMINI_ENDPOINT : jsstring :=
  u "https://generativelanguage.googleapis.com/v1beta/models/gemini-pro-vision:generateContent?key=".

Definition YOUDAO_ENDPOINT : jsstring :=
  u "https://fanyi.youdao.com/translate?&doctype=json&type=AUTO&i=".

(** The request of [recognizeImageWithGemini] (lines 17-37). *)
Definition gemini_request (imageBlob : Blob) (apiKey base64Image : jsstring) : Request :=
  {| url := GEMINI_ENDPOINT ++ apiKey;
     init := Some
       {| method := u "POST";
          headers := [(u "Content-Type", u "application/json")];
          body :=
            JObj {[ u "contents" :=
              JArr [ JObj {[ u "parts" :=
                JArr [ JObj {[ u "inline_data" :=
                         JObj (<[ u "mime_type" := JStr (blob_type imageBlob) ]>
                               {[ u "data" := JStr (strip_data_url_prefix base64Image) ]}) ]};
                       JObj {[ u "text" := JStr PROMPT_TEXT ]} ] ]} ] ]} |} |}.

(** The request of [translateText] (lines 84-86). *)
Definition youdao_request (encoded : jsstring) : Request :=
  {| url := YOUDAO_ENDPOINT ++ encoded; init := None |}.

Section Program.

Variable env : Env.

(** *** Platform calls *)

Definition navigator_clipboard_read : M (list ClipboardItem) :=
  emit ClipboardRead;;
  match clipboard_read env with
  | Some clipboardItems => mret clipboardItems
  | None => throw ClipboardError
  end.

Definition item_getType (item : ClipboardItem) (type : jsstring) : M Blob :=
  emit (ClipboardGetType type);;
  match getType item type with
  | Some blob => mret blob
  | None => throw ClipboardError
  end.

Definition URL_createObjectURL (blob : Blob) : M jsstring :=
  emit (ObjectURL blob);;
  mret (createObjectURL env blob).

(** [fetch(...)] resolves to a response, here its body as [json()] will
    read it. *)
Definition fetch (req : Request) : M (option JsVal) :=
  emit (Fetch req);;
  match fetch_result env req with
  | Rejected => throw FetchError
  | Resolved response => mret response
  end.

Definition response_json (response : option JsVal) : M JsVal :=
  match response with
  | Some data => mret data
  | None => throw SyntaxError
  end.

(** *** Lines 6-11: the stored API key *)

Definition saveGeminiApiKey (key : jsstring) : M unit :=
  localStorage_setItem GEMINI_KEY_STORAGE key.

Definition loadGeminiApiKey : M jsstring :=
  item ← localStorage_getItem GEMINI_KEY_STORAGE;
  (* getItem(...) || "" *)
  mret (match item with
        | Some s => if nonempty s then s else []
        | None => []
        end).

(** *** Lines 54-61 *)

Definition blobToBase64 (blob : Blob) : M jsstring :=
  emit (FileRead blob);;
  match readAsDataURL env blob with
  | Some result => mret result
  | None => throw ReaderError
  end.

(** *** Lines 14-51 *)

Definition recognizeImageWithGemini (imageBlob : Blob) (apiKey : jsstring) : M JsVal :=
  if negb (nonempty apiKey) then mret (JStr NO_KEY_TEXT)
  else
    base64Image ← blobToBase64 imageBlob;
    response ← fetch (gemini_request imageBlob apiKey base64Image);
    data ← response_json response;
    lift (recognize_response data).

(** *** Lines 64-80 *)

(** The inner loop over [item.types]; [Some blob] is the early return. *)
Fixpoint scan_types (item : ClipboardItem) (tys : list jsstring) : M (option Blob) :=
  match tys with
  | [] => mret None
  | type :: tys' =>
      if startsWith type (u "image/")
      then blob ← item_getType item type; mret (Some blob)
      else scan_types item tys'
  end.

(** The outer loop over [clipboardItems]. *)
Fixpoint scan_items (clipboardItems : list ClipboardItem) : M (option Blob) :=
  match clipboardItems with
  | [] => mret None
  | item :: rest =>
      found ← scan_types item (types item);
      match found with
      | Some blob => mret (Some blob)
      | None => scan_items rest
      end
  end.

(** [None] is the source's [null]. *)
Definition getImageFromClipboard : M (option Blob) :=
  try_catch
    (clipboardItems ← navigator_clipboard_read;
     scan_items clipboardItems)
    (fun e => alert CLIPBOARD_FAILED_MSG;; mret None).

(** *** Lines 83-92 *)

Definition translateText (text : JsVal) : M JsVal :=
  encoded ← lift (encodeURIComponent (number_toString env) text);
  response ← fetch (youdao_request encoded);
  data ← response_json response;
  lift (translate_response data).

(** *** Lines 107-111: the mount effect *)

Definition loadKeyOnMount : M unit :=
  key ← loadGeminiApiKey;
  setApiKey key;;
  setApiKeyInput key.

(** *** Lines 114-148 *)

Definition handleScreenshotTranslate : M unit :=
  st ← current_state;
  setLoading true;;
  setRecognizedText (JStr []);;
  setTranslatedText (JStr []);;
  setImageSrc None;;
  if negb (nonempty (apiKey st)) then
    setLoading false;;
    alert MISSING_KEY_MSG;;
    setTab settings
  else
    imageBlob ← getImageFromClipboard;
    match imageBlob with
    | None =>
        setLoading false;;
        alert NO_IMAGE_MSG
    | Some imageBlob =>
        imageUrl ← URL_createObjectURL imageBlob;
        setImageSrc (Some imageUrl);;
        text ← recognizeImageWithGemini imageBlob (apiKey st);
        setRecognizedText text;;
        translated ← translateText text;
        setTranslatedText translated;;
        setLoading false
    end.

(** *** Lines 151-156 *)

Definition handleSaveKey : M unit :=
  st ← current_state;
  saveGeminiApiKey (trim (apiKeyInput st));;
  setApiKey (trim (apiKeyInput st));;
  alert KEY_SAVED_MSG;;
  setTab main.

End Program.

(** ** The view and the user's actions (lines 158-222) *)

(* "OpenAI Translator 截图翻译" *)
Definition TITLE_MAIN : jsstring :=
  u "OpenAI Translator " ++ [0x622A; 0x56FE; 0x7FFB; 0x8BD1]%N.

(* "处理中..." *)
Definition LABEL_BUSY : jsstring :=
  [0x5904; 0x7406; 0x4E2D]%N ++ u "...".

(* "截图翻译（剪贴板图片->识别->翻译）" *)
Definition LABEL_TRIGGER : jsstring :=
  [0x622A; 0x56FE; 0x7FFB; 0x8BD1; 0xFF08; 0x526A; 0x8D34; 0x677F; 0x56FE;
  0x7247]%N ++ u "->" ++ [0x8BC6; 0x522B]%N ++ u "->" ++ [0x7FFB; 0x8BD1;
  0xFF09]%N.

(* "设置" *)
Definition LABEL_SETTINGS : jsstring :=
  [0x8BBE; 0x7F6E]%N.

(* "用 " *)
Definition HINT_1 : jsstring :=
  [0x7528]%N ++ u " ".

(* "Win+Shift+S" *)
Definition HINT_KEYS : jsstring :=
  u "Win+Shift+S".

(* " 截图后，点“截图翻译”即可。" *)
Definition HINT_2 : jsstring :=
  u " " ++ [0x622A; 0x56FE; 0x540E; 0xFF0C; 0x70B9; 0x201C; 0x622A; 0x56FE;
  0x7FFB; 0x8BD1; 0x201D; 0x5373; 0x53EF; 0x3002]%N.

(* "首次使用请先点“设置”填写 Gemini API Key。" *)
Definition HINT_FIRST_USE : jsstring :=
  [0x9996; 0x6B21; 0x4F7F; 0x7528; 0x8BF7; 0x5148; 0x70B9; 0x201C; 0x8BBE;
  0x7F6E; 0x201D; 0x586B; 0x5199]%N ++ u " Gemini API Key" ++ [0x3002]%N.

(* "图片预览：" *)
Definition PREVIEW_CAPTION : jsstring :=
  [0x56FE; 0x7247; 0x9884; 0x89C8; 0xFF1A]%N.

(* "剪贴板图片" *)
Definition PREVIEW_ALT : jsstring :=
  [0x526A; 0x8D34; 0x677F; 0x56FE; 0x7247]%N.

(* "图片文字识别结果：" *)
Definition RECOGNIZED_CAPTION : jsstring :=
  [0x56FE; 0x7247; 0x6587; 0x5B57; 0x8BC6; 0x522B; 0x7ED3; 0x679C; 0xFF1A]%N.

(* "翻译结果：" *)
Definition TRANSLATED_CAPTION : jsstring :=
  [0x7FFB; 0x8BD1; 0x7ED3; 0x679C; 0xFF1A]%N.

(* "Gemini API Key 设置" *)
Definition TITLE_SETTINGS : jsstring :=
  u "Gemini API Key " ++ [0x8BBE; 0x7F6E]%N.

(* "您的 Gemini API Key 只会储存在本地浏览器，不会上传到网络。" *)
Definition PRIVACY_NOTE : jsstring :=
  [0x60A8; 0x7684]%N ++ u " Gemini API Key " ++ [0x53EA; 0x4F1A; 0x50A8;
  0x5B58; 0x5728; 0x672C; 0x5730; 0x6D4F; 0x89C8; 0x5668; 0xFF0C; 0x4E0D;
  0x4F1A; 0x4E0A; 0x4F20; 0x5230; 0x7F51; 0x7EDC; 0x3002]%N.

(* "获取方法请参考 Gemini 官网文档。" *)
Definition HOWTO_NOTE : jsstring :=
  [0x83B7; 0x53D6; 0x65B9; 0x6CD5; 0x8BF7; 0x53C2; 0x8003]%N ++ u " Gemini "
  ++ [0x5B98; 0x7F51; 0x6587; 0x6863; 0x3002]%N.

(* "请输入您的 Gemini API Key" *)
Definition INPUT_PLACEHOLDER : jsstring :=
  [0x8BF7; 0x8F93; 0x5165; 0x60A8; 0x7684]%N ++ u " Gemini API Key".

(* "保存" *)
Definition LABEL_SAVE : jsstring :=
  [0x4FDD; 0x5B58]%N.

(* "返回" *)
Definition LABEL_BACK : jsstring :=
  [0x8FD4; 0x56DE]%N.

(** The event handlers the view installs. *)
Inductive Action : Type :=
| Trigger                     (* onClick={handleScreenshotTranslate} *)
| OpenSettings                (* onClick={() => setTab("settings")} *)
| SaveKey                     (* onClick={handleSaveKey} *)
| BackToMain                  (* onClick={() => setTab("main")} *)
| TypeKey (value : jsstring). (* onChange={(e) => setApiKeyInput(e.target.value)} *)

(** The elements of the view, without their styling attributes.  The one
    [Input] of the view has the [TypeKey] handler. *)
Inductive Node : Type :=
| TextNode (s : jsstring)
| H2 (s : jsstring)
| H4 (s : jsstring)
| B (s : jsstring)
| Span (s : jsstring)
| Br
| Button (label : jsstring) (disabled : bool) (onClick : Action)
| Img (src alt : jsstring)
| Textarea (value : JsVal)
| Input (value placeholder : jsstring)
| P (children : list Node)
| Div (children : list Node).

(** [{src && node}] for a string or null. *)
Definition when_src (src : option jsstring) (node : jsstring -> Node) : list Node :=
  match src with
  | Some s => if nonempty s then [node s] else []
  | None => []
  end.

(** [{v && node}] as a child: the node when [v] is truthy; a falsy number is
    rendered as text, the other falsy values as nothing. *)
Definition when_value (number_toString : spec_float -> jsstring) (v : JsVal)
    (node : JsVal -> Node) : list Node :=
  if truthy v then [node v]
  else match v with
       | JNum f => [TextNode (number_toString f)]
       | _ => []
       end.

(** What [Popup] returns.  How the browser turns the value of a [Textarea]
    into text is not modelled: for an object that hides [toString] that
    conversion throws and the popup is unmounted, so the program has fewer
    sessions than [interact] below accepts. *)
Definition render (number_toString : spec_float -> jsstring) (s : PopupState)
  : Node :=
  Div
    (match tab s with
     | main =>
         [H2 TITLE_MAIN;
          Button (if loading s then LABEL_BUSY else LABEL_TRIGGER) (loading s) Trigger;
          Button LABEL_SETTINGS false OpenSettings;
          P [TextNode HINT_1; B HINT_KEYS; TextNode HINT_2; Br; Span HINT_FIRST_USE]]
         ++ when_src (imageSrc s)
              (fun src => Div [P [TextNode PREVIEW_CAPTION]; Img src PREVIEW_ALT])
         ++ when_value number_toString (recognizedText s)
              (fun v => Div [H4 RECOGNIZED_CAPTION; Textarea v])
         ++ when_value number_toString (translatedText s)
              (fun v => Div [H4 TRANSLATED_CAPTION; Textarea v])
     | settings => []
     end
     ++
     match tab s with
     | settings =>
         [H2 TITLE_SETTINGS;
          P [TextNode PRIVACY_NOTE; Br; TextNode HOWTO_NOTE];
          Input (apiKeyInput s) INPUT_PLACEHOLDER;
          Div [Button LABEL_SAVE false SaveKey; Button LABEL_BACK false BackToMain]]
     | main => []
     end).

Definition same_action (a b : Action) : bool :=
  match a, b with
  | Trigger, Trigger | OpenSettings, OpenSettings
  | SaveKey, SaveKey | BackToMain, BackToMain => true
  | TypeKey x, TypeKey y => bool_decide (x = y)
  | _, _ => false
  end.

(** The view lets the user fire [a]: it holds an enabled button with that
    handler, or, for typing, the input. *)
Fixpoint offers (a : Action) (n : Node) : bool :=
  match n with
  | Button _ disabled onClick => negb disabled && same_action onClick a
  | Input _ _ => match a with TypeKey _ => true | _ => false end
  | P children | Div children => existsb (offers a) children
  | _ => false
  end.

(** What the handler of an action does. *)
Definition perform (env : Env) (a : Action) : M unit :=
  match a with
  | Trigger => handleScreenshotTranslate env
  | OpenSettings => setTab settings
  | SaveKey => handleSaveKey
  | BackToMain => setTab main
  | TypeKey value => setApiKeyInput value
  end.

(** A session: one handler after the other, each in the environment of its
    moment and each run to its end (or to the exception that ends it); [None]
    when the view of the moment does not offer the action. *)
Fixpoint interact (steps : list (Env * Action)) (w : World) : option World :=
  match steps with
  | [] => Some w
  | (env, a) :: rest =>
      if offers a (render (number_toString env) (popup w))
      then interact rest (world_of (perform env a w))
      else None
  end.

(** The popup just opened on a given storage: initial state, mount effect
    run. *)
Definition opened (storage : gmap jsstring jsstring) : World :=
  world_of (loadKeyOnMount {| popup := initial_popup; localStorage := storage |}).

(** ** Vocabulary for the statements *)

(** The first four actions of [handleScreenshotTranslate]. *)
Definition CLEAR_EVENTS : list Event :=
  [State (SetLoading true); State (SetRecognizedText (JStr []));
   State (SetTranslatedText (JStr [])); State (SetImageSrc None)].

(** The state they leave. *)
Definition cleared (s : PopupState) : PopupState :=
  {| tab := tab s; imageSrc := None; recognizedText := JStr [];
     translatedText := JStr []; loading := true; apiKey := apiKey s;
     apiKeyInput := apiKeyInput s |}.


(** What a fetch followed by [json()] hands on: the rejection of either
    promise, or what the response reader makes of the parsed body. *)
Definition body_read (read : JsVal -> Result JsVal) (r : FetchResult)
  : Result JsVal :=
  match r with
  | Rejected => Throw FetchError
  | Resolved None => Throw SyntaxError
  | Resolved (Some data) => read data
  end.

(** The world when recognition starts: results cleared, preview shown. *)
Definition previewing (env : Env) (imageBlob : Blob) (w : World) : World :=
  update_world (SetImageSrc (Some (createObjectURL env imageBlob)))
    {| popup := cleared (popup w); localStorage := localStorage w |}.

(** The events of a run up to the start of recognition. *)
Definition before_recognition (env : Env) (imageBlob : Blob) (w : World)
  : list Event :=
  CLEAR_EVENTS ++ trace_of (getImageFromClipboard env w)
  ++ [ObjectURL imageBlob;
      State (SetImageSrc (Some (createObjectURL env imageBlob)))].

(** [encodeURIComponent("未能识别图片文字")] *)
Definition NOT_RECOGNIZED_ENCODED : jsstring :=
  u "%E6%9C%AA%E8%83%BD%E8%AF%86%E5%88%AB%E5%9B%BE%E7%89%87%E6%96%87%E5%AD%97".

Definition is_fetch (ev : Event) : bool :=
  match ev with Fetch _ => true | _ => false end.

Definition is_clipboard_access (ev : Event) : bool :=
  match ev with ClipboardRead | ClipboardGetType _ => true | _ => false end.

Definition is_alert (ev : Event) : bool :=
  match ev with Alert _ => true | _ => false end.

(** The first image on the clipboard, in the order of the scan: the first
    item with a type tag that starts with [image/], and the first such tag. *)
Definition first_image_type (item : ClipboardItem) : option jsstring :=
  List.find (fun type => startsWith type (u "image/")) (types item).

Fixpoint first_image (clipboardItems : list ClipboardItem)
  : option (ClipboardItem * jsstring) :=
  match clipboardItems with
  | [] => None
  | item :: rest =>
      match first_image_type item with
      | Some type => Some (item, type)
      | None => first_image rest
      end
  end.

(** What a capture comes to: the image, if any, and the events. *)
Definition capture (env : Env) : option Blob * list Event :=
  match clipboard_read env with
  | None => (None, [ClipboardRead; Alert CLIPBOARD_FAILED_MSG])
  | Some clipboardItems =>
      match first_image clipboardItems with
      | None => (None, [ClipboardRead])
      | Some (item, type) =>
          match getType item type with
          | Some blob => (Some blob, [ClipboardRead; ClipboardGetType type])
          | None =>
              (None, [ClipboardRead; ClipboardGetType type;
                      Alert CLIPBOARD_FAILED_MSG])
          end
      end
  end.

(** The requests among the events. *)
Definition requests (evs : list Event) : list Request :=
  omap (fun ev => match ev with Fetch req => Some req | _ => None end) evs.

(** A code unit that can stand in a query string as it is: unreserved, or
    the percent sign of an escape. *)
Definition is_url_safe (c : N) : bool := is_uri_unreserved c || (c =? 0x25)%N.

(** The ways a run of [handleScreenshotTranslate] can go, each with the
    result, the final world and the events: stopped for want of a key or of
    an image, broken off by an exception of one of the four awaited steps
    after the capture, or run to its end. *)
Inductive Run (env : Env) (w : World) : Result unit * World * list Event -> Prop :=
| Run_no_key :
    nonempty (apiKey (popup w)) = false ->
    Run env w
      (Ok tt,
       update_world (SetTab settings)
         (update_world (SetLoading false)
            {| popup := cleared (popup w); localStorage := localStorage w |}),
       CLEAR_EVENTS
       ++ [State (SetLoading false); Alert MISSING_KEY_MSG; State (SetTab settings)])
| Run_no_image (tr : list Event) :
    nonempty (apiKey (popup w)) = true ->
    capture env = (None, tr) ->
    Run env w
      (Ok tt,
       update_world (SetLoading false)
         {| popup := cleared (popup w); localStorage := localStorage w |},
       CLEAR_EVENTS ++ tr ++ [State (SetLoading false); Alert NO_IMAGE_MSG])
| Run_reader_error (imageBlob : Blob) (tr : list Event) :
    nonempty (apiKey (popup w)) = true ->
    capture env = (Some imageBlob, tr) ->
    readAsDataURL env imageBlob = None ->
    Run env w
      (Throw ReaderError, previewing env imageBlob w,
       before_recognition env imageBlob w ++ [FileRead imageBlob])
| Run_recognition_error (imageBlob : Blob) (tr : list Event)
    (base64Image : jsstring) (e : JsError) :
    nonempty (apiKey (popup w)) = true ->
    capture env = (Some imageBlob, tr) ->
    readAsDataURL env imageBlob = Some base64Image ->
    let req := gemini_request imageBlob (apiKey (popup w)) base64Image in
    body_read recognize_response (fetch_result env req) = Throw e ->
    Run env w
      (Throw e, previewing env imageBlob w,
       before_recognition env imageBlob w ++ [FileRead imageBlob; Fetch req])
| Run_encode_error (imageBlob : Blob) (tr : list Event)
    (base64Image : jsstring) (text : JsVal) (e : JsError) :
    nonempty (apiKey (popup w)) = true ->
    capture env = (Some imageBlob, tr) ->
    readAsDataURL env imageBlob = Some base64Image ->
    let req := gemini_request imageBlob (apiKey (popup w)) base64Image in
    body_read recognize_response (fetch_result env req) = Ok text ->
    encodeURIComponent (number_toString env) text = Throw e ->
    Run env w
      (Throw e,
       update_world (SetRecognizedText text) (previewing env imageBlob w),
       before_recognition env imageBlob w
       ++ [FileRead imageBlob; Fetch req; State (SetRecognizedText text)])
| Run_translation_error (imageBlob : Blob) (tr : list Event)
    (base64Image : jsstring) (text : JsVal) (encoded : jsstring) (e : JsError) :
    nonempty (apiKey (popup w)) = true ->
    capture env = (Some imageBlob, tr) ->
    readAsDataURL env imageBlob = Some base64Image ->
    let req := gemini_request imageBlob (apiKey (popup w)) base64Image in
    body_read recognize_response (fetch_result env req) = Ok text ->
    encodeURIComponent (number_toString env) text = Ok encoded ->
    body_read translate_response (fetch_result env (youdao_request encoded)) = Throw e ->
    Run env w
      (Throw e,
       update_world (SetRecognizedText text) (previewing env imageBlob w),
       before_recognition env imageBlob w
       ++ [FileRead imageBlob; Fetch req; State (SetRecognizedText text);
           Fetch (youdao_request encoded)])
| Run_complete (imageBlob : Blob) (tr : list Event)
    (base64Image : jsstring) (text : JsVal) (encoded : jsstring)
    (translated : JsVal) :
    nonempty (apiKey (popup w)) = true ->
    capture env = (Some imageBlob, tr) ->
    readAsDataURL env imageBlob = Some base64Image ->
    let req := gemini_request imageBlob (apiKey (popup w)) base64Image in
    body_read recognize_response (fetch_result env req) = Ok text ->
    encodeURIComponent (number_toString env) text = Ok encoded ->
    body_read translate_response (fetch_result env (youdao_request encoded))
    = Ok translated ->
    Run env w
      (Ok tt,
       update_world (SetLoading false)
         (update_world (SetTranslatedText translated)
            (update_world (SetRecognizedText text) (previewing env imageBlob w))),
       before_recognition env imageBlob w
       ++ [FileRead imageBlob; Fetch req; State (SetRecognizedText text);
           Fetch (youdao_request encoded);
           State (SetTranslatedText translated); State (SetLoading false)]).

(** ** Test doubles *)

Module Examples.

Definition png : Blob :=
  {| blob_type := u "image/png"; blob_bytes := [0x89; 0x50; 0x4E; 0x47]%N |}.

(** A screenshot on the clipboard. *)
Definition screenshot : ClipboardItem :=
  {| types := [u "text/html"; u "image/png"];
     getType := fun type => if startsWith type (u "image/") then Some png else None |}.

(** A browser whose clipboard read gives [clip] and whose two endpoints
    answer [gemini] and [youdao].  No number is converted to a string in
    the examples. *)
Definition browser (clip : option (list ClipboardItem))
    (gemini youdao : FetchResult) : Env :=
  {| clipboard_read := clip;
     readAsDataURL := fun blob => Some (u "data:image/png;base64,iVBORw==");
     createObjectURL := fun blob => u "blob:chrome-extension://popup/1";
     number_toString := fun f => u "NaN";
     fetch_result := fun req =>
       if startsWith (url req) GEMINI_ENDPOINT then gemini else youdao |}.

(** [{"candidates":[{"content":{"parts":p}}]}] *)
Definition gemini_parts (p : list JsVal) : JsVal :=
  JObj {[ u "candidates" :=
    JArr [ JObj {[ u "content" := JObj {[ u "parts" := JArr p ]} ]} ] ]}.

(** [{"candidates":[{"content":{"parts":[{"text":s}]}}]}] *)
Definition gemini_text (s : jsstring) : JsVal :=
  gemini_parts [ JObj {[ u "text" := JStr s ]} ].

(** [{"translateResult":[[entry]]}] *)
Definition youdao_entry (entry : JsVal) : JsVal :=
  JObj {[ u "translateResult" := JArr [ JArr [ entry ] ] ]}.

(** [{"translateResult":[[{"tgt":s}]]}] *)
Definition youdao_tgt (s : jsstring) : JsVal :=
  youdao_entry (JObj {[ u "tgt" := JStr s ]}).

(* "你好" *)
Definition NI_HAO : jsstring := [0x4F60; 0x597D]%N.

(** The popup on its main tab with [key] loaded. *)
Definition popup_with_key (key : jsstring) : World :=
  {| popup := apply_update (SetApiKeyInput key) (apply_update (SetApiKey key) initial_popup);
     localStorage := {[ GEMINI_KEY_STORAGE := key ]} |}.

End Examples.

(** ** Proof tactics *)

(** Rewrites with the truthiness facts at hand until the goal is settled. *)
Ltac by_truthiness :=
  simpl;
  repeat match goal with
         | H : truthy _ = _ |- _ => rewrite H; simpl
         end;
  eauto.

(** Unfolds the monad and the primitive actions, leaving the calls of the
    platform and of the program's own functions in place. *)
Ltac run :=
  cbv [mbind M_bind mret M_ret emit throw lift try_catch alert
       setState setTab setImageSrc setRecognizedText setTranslatedText
       setLoading setApiKey setApiKeyInput current_state
       localStorage_setItem localStorage_getItem
       result_of world_of trace_of fst snd];
  simpl.

(** * Properties *)

(** ** Reading a response *)

Lemma js_and_truthy (a b : Result JsVal) (v : JsVal) :
  js_and a b = Ok v -> truthy v = true ->
  (exists va, a = Ok va /\ truthy va = true) /\ b = Ok v.
Proof.
  unfold js_and. destruct a as [va|e]; [|discriminate].
  destruct (truthy va) eqn:Hva.
  - intros -> _. eauto.
  - intros [= <-] Hv. congruence.
Qed.


Lemma js_and_pass (a b : Result JsVal) (v : JsVal) :
  a = Ok v -> truthy v = true -> js_and a b = b.
Proof. intros -> Hv. unfold js_and. by rewrite Hv. Qed.

(** Reading a property or an element of a truthy value does not throw. *)
Lemma get_field_truthy (f : Field) (v : JsVal) :
  truthy v = true -> exists x, get_field f v = Ok x.
Proof. destruct v; simpl; intros; try discriminate; eauto. Qed.

Lemma get_index0_truthy (v : JsVal) :
  truthy v = true -> exists x, get_index0 v = Ok x.
Proof. destruct v; simpl; intros; try discriminate; eauto. Qed.

(** A link that is present is what the property read returns, and only a
    truthy value has one. *)
Lemma present_Dot (f : Field) (v x : JsVal) :
  present (Dot f) v = Some x -> truthy v = true /\ get_field f v = Ok x.
Proof.
  destruct v; simpl; try discriminate.
  intros ->. done.
Qed.

Lemma present_Index0 (v x : JsVal) :
  present Index0 v = Some x -> truthy v = true /\ get_index0 v = Ok x.
Proof.
  destruct v as [| | | |s|l|m]; simpl; try discriminate.
  - destruct s; [discriminate|]. intros [= <-]. done.
  - intros ->. done.
  - intros ->. done.
Qed.


(** When the five guards hold, their value is [data.candidates[0].content.parts]. *)
Lemma five_guards_truthy (d p : JsVal) :
  five_guards d = Ok p -> truthy p = true ->
  Ok d .> Candidates .[0] .> Content .> Parts = Ok p.
Proof.
  unfold five_guards. intros H Hp.
  by destruct (js_and_truthy _ _ _ H Hp) as [_ ->].
Qed.

Lemma recognize_response_guards (d : JsVal) :
  recognize_response d =
    (guard ← five_guards d AND Ok d .> Candidates .[0] .> Content .> Parts .[0] .> Text;
     if truthy guard
     then Ok d .> Candidates .[0] .> Content .> Parts .[0] .> Text
     else Ok (JStr NOT_RECOGNIZED_TEXT)).
Proof. reflexivity. Qed.


(** When the five guards hold, everything depends on [parts[0].text]; the
    read of [parts[0]] is not guarded. *)
Lemma recognize_response_parts (d p : JsVal) :
  five_guards d = Ok p -> truthy p = true ->
  recognize_response d =
    (t ← get_index0 p ≫= get_field Text;
     Ok (if truthy t then t else JStr NOT_RECOGNIZED_TEXT)).
Proof.
  intros H Hp. rewrite recognize_response_guards.
  rewrite (js_and_pass _ _ p H Hp).
  rewrite (five_guards_truthy d p H Hp). simpl.
  destruct (get_index0 p) as [p0|e]; simpl; [|done].
  destruct (get_field Text p0) as [t|e]; simpl; [|done].
  destruct (truthy t); done.
Qed.

Lemma descend_parts_guards (d p : JsVal) :
  descend [Dot Candidates; Index0; Dot Content; Dot Parts] d = Some p ->
  five_guards d = Ok p.
Proof.
  cbn [descend].
  destruct (present (Dot Candidates) d) as [c|] eqn:H1; [|discriminate].
  destruct (present Index0 c) as [c0|] eqn:H2; [|discriminate].
  destruct (present (Dot Content) c0) as [ct|] eqn:H3; [|discriminate].
  destruct (present (Dot Parts) ct) as [p'|] eqn:H4; [|discriminate].
  intros [= ->].
  apply present_Dot in H1 as [Hd E1], H3 as [Hc0 E3], H4 as [Hct E4].
  apply present_Index0 in H2 as [Hc E2].
  unfold five_guards, js_and. simpl.
  rewrite Hd, E1. simpl. rewrite Hc, E2. simpl. rewrite Hc0, E3. simpl.
  rewrite Hct, E4. done.
Qed.

(** With the whole path present, the text is returned when it is truthy and
    the sentinel otherwise. *)
Lemma recognize_response_full_path (d t : JsVal) :
  descend TEXT_PATH d = Some t ->
  recognize_response d = Ok (if truthy t then t else JStr NOT_RECOGNIZED_TEXT).
Proof.
  intros H.
  destruct (descend [Dot Candidates; Index0; Dot Content; Dot Parts] d)
    as [p|] eqn:Hp.
  - pose proof (descend_parts_guards d p Hp) as Hg.
    revert H Hp. unfold TEXT_PATH. cbn [descend].
    destruct (present (Dot Candidates) d) as [c|]; [|discriminate].
    destruct (present Index0 c) as [c0|]; [|discriminate].
    destruct (present (Dot Content) c0) as [ct|]; [|discriminate].
    destruct (present (Dot Parts) ct) as [p'|]; [|discriminate].
    destruct (present Index0 p') as [p0|] eqn:H5; [|discriminate].
    destruct (present (Dot Text) p0) as [t'|] eqn:H6; [|discriminate].
    intros [= ->] [= ->].
    apply present_Index0 in H5 as [Hp E5].
    apply present_Dot in H6 as [_ E6].
    rewrite (recognize_response_parts d p Hg Hp), E5. simpl. by rewrite E6.
  - revert H Hp. unfold TEXT_PATH. cbn [descend].
    destruct (present (Dot Candidates) d) as [c|]; [|discriminate].
    destruct (present Index0 c) as [c0|]; [|discriminate].
    destruct (present (Dot Content) c0) as [ct|]; [|discriminate].
    destruct (present (Dot Parts) ct) as [p'|]; discriminate.
Qed.

(** [translateText]'s reading of a body never throws. *)
Lemma translate_response_total (d : JsVal) : exists v, translate_response d = Ok v.
Proof.
  unfold translate_response, js_and. simpl.
  destruct (truthy d) eqn:Hd; [|by_truthiness].
  destruct (get_field_truthy TranslateResult d Hd) as [r ->]. simpl.
  destruct (truthy r) eqn:Hr; [|by_truthiness].
  destruct (get_index0_truthy r Hr) as [g ->]. simpl.
  destruct (truthy g) eqn:Hg; [|by_truthiness].
  destruct (get_index0_truthy g Hg) as [e ->]. simpl.
  destruct (truthy e) eqn:He; [|by_truthiness].
  apply (get_field_truthy Tgt e He).
Qed.

(** ** Running the effectful functions *)

Section Runs.

Context (env : Env).

(** The clipboard scan neither throws past its [catch] nor touches the
    world, and does the same in every world. *)
Lemma scan_types_frame (item : ClipboardItem) (tys : list jsstring) :
  exists r tr, forall w, scan_types item tys w = (r, w, tr).
Proof.
  induction tys as [|type tys IH]; simpl.
  - by eexists _, _.
  - destruct (startsWith type (u "image/")); [|exact IH].
    unfold item_getType.
    destruct (getType item type); run; by eexists _, _.
Qed.

Lemma scan_items_frame (items : list ClipboardItem) :
  exists r tr, forall w, scan_items items w = (r, w, tr).
Proof.
  induction items as [|item items (r' & tr' & IH)]; simpl.
  - by eexists _, _.
  - destruct (scan_types_frame item (types item)) as (r & tr & H).
    destruct r as [[blob|]|e].
    + exists (Ok (Some blob)), (tr ++ []). intros w.
      unfold mbind, M_bind. rewrite H. by run.
    + exists r', (tr ++ tr'). intros w.
      unfold mbind, M_bind. rewrite H. run. by rewrite IH.
    + exists (Throw e), tr. intros w.
      unfold mbind, M_bind. rewrite H. by run.
Qed.

Lemma getImageFromClipboard_frame :
  exists imageBlob tr, forall w,
    getImageFromClipboard env w = (Ok imageBlob, w, tr).
Proof.
  unfold getImageFromClipboard, try_catch, navigator_clipboard_read.
  destruct (clipboard_read env) as [items|].
  - destruct (scan_items_frame items) as (r & tr & H).
    destruct r as [o|e].
    + exists o, (ClipboardRead :: tr). intros w.
      run. rewrite H. by run.
    + exists None, ((ClipboardRead :: tr) ++ [Alert CLIPBOARD_FAILED_MSG]).
      intros w. run. rewrite H. by run.
  - exists None, [ClipboardRead; Alert CLIPBOARD_FAILED_MSG]. intros w. by run.
Qed.

(** Without a key the handler stops after its notice. *)
Lemma handle_without_key (w : World) :
  nonempty (apiKey (popup w)) = false ->
  handleScreenshotTranslate env w =
    (Ok tt,
     update_world (SetTab settings)
       (update_world (SetLoading false)
          {| popup := cleared (popup w); localStorage := localStorage w |}),
     CLEAR_EVENTS ++
     [State (SetLoading false); Alert MISSING_KEY_MSG; State (SetTab settings)]).
Proof.
  intros Hkey. unfold handleScreenshotTranslate.
  run. rewrite Hkey. by run.
Qed.

(** One run of [recognizeImageWithGemini] with a key. *)
Lemma recognize_run (imageBlob : Blob) (key base64Image : jsstring) (w : World) :
  nonempty key = true ->
  readAsDataURL env imageBlob = Some base64Image ->
  let req := gemini_request imageBlob key base64Image in
  recognizeImageWithGemini env imageBlob key w =
    (body_read recognize_response (fetch_result env req), w,
     [FileRead imageBlob; Fetch req]).
Proof.
  intros Hkey Hread req. unfold recognizeImageWithGemini, blobToBase64, fetch.
  rewrite Hkey, Hread. run. fold req.
  destruct (fetch_result env req) as [|[data|]]; by run.
Qed.

Lemma recognize_run_reader_error (imageBlob : Blob) (key : jsstring) (w : World) :
  nonempty key = true ->
  readAsDataURL env imageBlob = None ->
  recognizeImageWithGemini env imageBlob key w =
    (Throw ReaderError, w, [FileRead imageBlob]).
Proof.
  intros Hkey Hread. unfold recognizeImageWithGemini, blobToBase64.
  rewrite Hkey, Hread. by run.
Qed.

(** One run of [translateText]. *)
Lemma translate_run (text : JsVal) (encoded : jsstring) (w : World) :
  encodeURIComponent (number_toString env) text = Ok encoded ->
  let req := youdao_request encoded in
  translateText env text w =
    (body_read translate_response (fetch_result env req), w, [Fetch req]).
Proof.
  intros Henc req. unfold translateText, fetch. rewrite Henc. run. fold req.
  destruct (fetch_result env req) as [|[data|]]; by run.
Qed.

Lemma translate_run_encode_error (text : JsVal) (e : JsError) (w : World) :
  encodeURIComponent (number_toString env) text = Throw e ->
  translateText env text w = (Throw e, w, []).
Proof. intros Henc. unfold translateText. rewrite Henc. by run. Qed.

(** The run of the handler once the clipboard has given an image. *)
Lemma handle_with_image (w : World) (imageBlob : Blob) :
  nonempty (apiKey (popup w)) = true ->
  result_of (getImageFromClipboard env w) = Ok (Some imageBlob) ->
  let before := before_recognition env imageBlob w in
  let x := recognizeImageWithGemini env imageBlob (apiKey (popup w))
             (previewing env imageBlob w) in
  handleScreenshotTranslate env w =
    match result_of x with
    | Throw e => (Throw e, world_of x, before ++ trace_of x)
    | Ok text =>
        let y := translateText env text
                   (update_world (SetRecognizedText text) (world_of x)) in
        match result_of y with
        | Throw e =>
            (Throw e, world_of y,
             before ++ trace_of x ++ [State (SetRecognizedText text)] ++ trace_of y)
        | Ok translated =>
            (Ok tt,
             update_world (SetLoading false)
               (update_world (SetTranslatedText translated) (world_of y)),
             before ++ trace_of x ++ [State (SetRecognizedText text)]
             ++ trace_of y
             ++ [State (SetTranslatedText translated); State (SetLoading false)])
        end
    end.
Proof.
  intros Hkey Himg before x.
  destruct getImageFromClipboard_frame as (o & tr & Hframe).
  rewrite Hframe in Himg. injection Himg as ->.
  subst before x. unfold before_recognition. rewrite Hframe.
  unfold handleScreenshotTranslate, URL_createObjectURL, previewing.
  run. rewrite Hkey. run. rewrite Hframe. run.
  set (x := recognizeImageWithGemini _ _ _ _).
  destruct x as [[[text|e] w1] t1]; run.
  - set (y := translateText _ _ _).
    destruct y as [[[translated|e] w2] t2]; run.
    + by rewrite <- !app_assoc.
    + by rewrite <- !app_assoc.
  - by rewrite <- !app_assoc.
Qed.

(** The run of the handler when the clipboard gives no image. *)
Lemma handle_without_image (w : World) :
  nonempty (apiKey (popup w)) = true ->
  result_of (getImageFromClipboard env w) = Ok None ->
  handleScreenshotTranslate env w =
    (Ok tt,
     update_world (SetLoading false)
       {| popup := cleared (popup w); localStorage := localStorage w |},
     CLEAR_EVENTS ++ trace_of (getImageFromClipboard env w)
     ++ [State (SetLoading false); Alert NO_IMAGE_MSG]).
Proof.
  intros Hkey Himg.
  destruct getImageFromClipboard_frame as (o & tr & Hframe).
  rewrite Hframe in Himg. injection Himg as ->. rewrite Hframe.
  unfold handleScreenshotTranslate.
  run. rewrite Hkey. run. rewrite Hframe. by run.
Qed.

End Runs.

(** ** The credential store *)

Lemma loadGeminiApiKey_run (w : World) :
  loadGeminiApiKey w =
    (Ok (default [] (localStorage w !! GEMINI_KEY_STORAGE)), w, []).
Proof.
  unfold loadGeminiApiKey. run.
  destruct (localStorage w !! GEMINI_KEY_STORAGE) as [[|c s]|]; done.
Qed.

(** C3, amended.  [saveGeminiApiKey] stores its argument as it is, so a save
    followed by a load gives back the very string that was saved; the
    trimming is done by [handleSaveKey], after which both the stored key and
    the key in memory are the trimmed input, and the view is back on Main. *)
Theorem save_then_load (x : jsstring) (w : World) :
  result_of ((saveGeminiApiKey x;; loadGeminiApiKey) w) = Ok x
  /\ (let w' := world_of (handleSaveKey w) in
      result_of (loadGeminiApiKey w') = Ok (trim (apiKeyInput (popup w)))
      /\ apiKey (popup w') = trim (apiKeyInput (popup w))
      /\ tab (popup w') = main
      /\ trace_of (handleSaveKey w) =
           [StorageSetItem GEMINI_KEY_STORAGE (trim (apiKeyInput (popup w)));
            State (SetApiKey (trim (apiKeyInput (popup w))));
            Alert KEY_SAVED_MSG; State (SetTab main)]).
Proof.
  split.
  - unfold saveGeminiApiKey.
    cbv [mbind M_bind localStorage_setItem result_of world_of fst snd].
    rewrite loadGeminiApiKey_run. simpl.
    by rewrite lookup_insert_eq.
  - cbv zeta. rewrite loadGeminiApiKey_run.
    unfold handleSaveKey, saveGeminiApiKey. run.
    by rewrite lookup_insert_eq.
Qed.

(** C3, as stated, fails: saving [" k"] and loading gives [" k"], which is
    not [trim(" k") = "k"]. *)
Lemma save_then_load_keeps_whitespace :
  result_of ((saveGeminiApiKey (u " k");; loadGeminiApiKey)
               (Examples.popup_with_key [])) = Ok (u " k")
  /\ trim (u " k") = u "k"
  /\ u " k" <> trim (u " k").
Proof. split; [|split]; [reflexivity | reflexivity | discriminate]. Qed.

(** ** The controller *)

(** C4.  A run triggered with an empty credential clears the results, sets
    loading back to false, shows the missing-credential notice, switches to
    the Settings tab and returns: it reads no clipboard, sends no request, and
    leaves the recognized and translated text empty. *)
Theorem missing_credential_stops_run (env : Env) (w : World) :
  apiKey (popup w) = [] ->
  let r := handleScreenshotTranslate env w in
  result_of r = Ok tt
  /\ trace_of r =
       [State (SetLoading true); State (SetRecognizedText (JStr []));
        State (SetTranslatedText (JStr [])); State (SetImageSrc None);
        State (SetLoading false); Alert MISSING_KEY_MSG; State (SetTab settings)]
  /\ forallb (fun ev => negb (is_fetch ev || is_clipboard_access ev)) (trace_of r) = true
  /\ tab (popup (world_of r)) = settings
  /\ recognizedText (popup (world_of r)) = JStr []
  /\ translatedText (popup (world_of r)) = JStr []
  /\ imageSrc (popup (world_of r)) = None
  /\ loading (popup (world_of r)) = false.
Proof.
  intros Hkey r. subst r.
  rewrite handle_without_key by (by rewrite Hkey).
  repeat split.
Qed.

(** Scenario 1 of the specification: no credential, an image on the
    clipboard. *)
Lemma missing_credential_stops_run_witness :
  let env := Examples.browser (Some [Examples.screenshot]) Rejected Rejected in
  let w := Examples.popup_with_key [] in
  apiKey (popup w) = []
  /\ tab (popup (world_of (handleScreenshotTranslate env w))) = settings
  /\ forallb (fun ev => negb (is_fetch ev || is_clipboard_access ev))
       (trace_of (handleScreenshotTranslate env w)) = true.
Proof.
  intros env w.
  pose proof (missing_credential_stops_run env w eq_refl) as H.
  split; [reflexivity|]. split; apply H.
Defined.

(** C7.  When the clipboard read throws, [getImageFromClipboard] itself
    shows the access-failure notice and returns null; that message differs
    from the no-image message, which the controller shows whenever the
    capture returns null (so after a failed read both notices appear, the
    access failure first). *)
Theorem clipboard_denied_notice (env : Env) (w : World) :
  clipboard_read env = None ->
  getImageFromClipboard env w =
    (Ok None, w, [ClipboardRead; Alert CLIPBOARD_FAILED_MSG])
  /\ CLIPBOARD_FAILED_MSG <> NO_IMAGE_MSG
  /\ (nonempty (apiKey (popup w)) = true ->
      trace_of (handleScreenshotTranslate env w) =
        CLEAR_EVENTS ++
        [ClipboardRead; Alert CLIPBOARD_FAILED_MSG;
         State (SetLoading false); Alert NO_IMAGE_MSG])
  /\ (forall env', nonempty (apiKey (popup w)) = true ->
      result_of (getImageFromClipboard env' w) = Ok None ->
      last (trace_of (handleScreenshotTranslate env' w)) = Some (Alert NO_IMAGE_MSG)).
Proof.
  intros Hclip.
  assert (Hcap : getImageFromClipboard env w =
                 (Ok None, w, [ClipboardRead; Alert CLIPBOARD_FAILED_MSG])).
  { unfold getImageFromClipboard, navigator_clipboard_read.
    rewrite Hclip. by run. }
  split; [exact Hcap|]. split; [discriminate|]. split.
  - intros Hkey. rewrite handle_without_image by (done || by rewrite Hcap).
    by rewrite Hcap.
  - intros env' Hkey Hnone. rewrite (handle_without_image env' w Hkey Hnone).
    unfold trace_of at 1. cbn [snd].
    rewrite app_assoc. by rewrite last_app.
Qed.

(** A browser that denies the clipboard read. *)
Lemma clipboard_denied_notice_witness :
  let env := Examples.browser None Rejected Rejected in
  let w := Examples.popup_with_key (u "ABC123") in
  clipboard_read env = None
  /\ getImageFromClipboard env w =
       (Ok None, w, [ClipboardRead; Alert CLIPBOARD_FAILED_MSG])
  /\ CLIPBOARD_FAILED_MSG <> NO_IMAGE_MSG.
Proof.
  intros env w.
  pose proof (clipboard_denied_notice env w eq_refl) as H.
  split; [reflexivity|]. split; apply H.
Defined.

(** ** The response readers, link by link *)

Lemma absent_Dot (f : Field) (v : JsVal) :
  present (Dot f) v = None -> truthy v = true -> get_field f v = Ok JUndefined.
Proof. destruct v; simpl; try done. by intros ->. Qed.

Lemma absent_Index0 (v : JsVal) :
  present Index0 v = None -> truthy v = true -> get_index0 v = Ok JUndefined.
Proof.
  destruct v as [| | | |s|l|m]; simpl; try done.
  - by destruct s.
  - by intros ->.
  - by intros ->.
Qed.

#[local] Arguments present : simpl never.

(** Follows one link in a goal about a guard chain: the link is present and
    truthy (the proof goes on), or the guard is settled. *)
Ltac follow_link step v x :=
  let Hp := fresh "Hp" in
  let Ht := fresh "Ht" in
  destruct (present step v) as [x|] eqn:Hp;
  [ first [ apply present_Dot in Hp as [_ ->] | apply present_Index0 in Hp as [_ ->] ];
    simpl; destruct (truthy x) eqn:Ht; [|try by_truthiness]
  | first [ rewrite (absent_Dot _ _ Hp) by done | rewrite (absent_Index0 _ Hp) by done ];
    try by_truthiness ].

(** A response in which [candidates[0].content.parts] cannot be reached
    gives the sentinel. *)
Lemma recognize_response_no_parts (d : JsVal) :
  descend [Dot Candidates; Index0; Dot Content; Dot Parts] d = None ->
  recognize_response d = Ok (JStr NOT_RECOGNIZED_TEXT).
Proof.
  cbn [descend]. unfold recognize_response, js_and. simpl.
  destruct (truthy d) eqn:Hd; [|by_truthiness].
  follow_link (Dot Candidates) d c.
  follow_link Index0 c c0.
  follow_link (Dot Content) c0 ct.
  follow_link (Dot Parts) ct p.
  discriminate.
Qed.

(** The entry [translateResult[0][0]] decides what [translateText] returns:
    its [tgt] property, whatever that is, when the entry is truthy. *)
Lemma translate_response_entry (d : JsVal) :
  translate_response d =
    match descend [Dot TranslateResult; Index0; Index0] d with
    | Some entry =>
        if truthy entry then get_field Tgt entry
        else Ok (JStr TRANSLATE_FAILED_TEXT)
    | None => Ok (JStr TRANSLATE_FAILED_TEXT)
    end.
Proof.
  cbn [descend]. unfold translate_response, js_and. simpl.
  destruct (truthy d) eqn:Hd.
  2:{ by_truthiness. destruct d; try done. }
  follow_link (Dot TranslateResult) d r.
  2:{ destruct (present Index0 r) as [g|] eqn:Hg; [|done].
      apply present_Index0 in Hg as [Hr' _]. congruence. }
  follow_link Index0 r g.
  2:{ destruct (present Index0 g) as [e|] eqn:He; [|done].
      apply present_Index0 in He as [Hg' _]. congruence. }
  follow_link Index0 g e.
  done.
Qed.

(** ** The recognition client *)

(** C9.  When the body holds the whole path
    [candidates[0].content.parts[0].text] and the text is the empty string,
    [recognizeImageWithGemini] returns the "not recognized" sentinel, not the
    empty string: the same value as for a body with no candidates at all. *)
Theorem empty_text_gives_sentinel (env : Env) (imageBlob : Blob)
    (key base64Image : jsstring) (data : JsVal) (w : World) :
  nonempty key = true ->
  readAsDataURL env imageBlob = Some base64Image ->
  fetch_result env (gemini_request imageBlob key base64Image) = Resolved (Some data) ->
  descend TEXT_PATH data = Some (JStr []) ->
  result_of (recognizeImageWithGemini env imageBlob key w) = Ok (JStr NOT_RECOGNIZED_TEXT)
  /\ result_of (recognizeImageWithGemini env imageBlob key w) <> Ok (JStr [])
  /\ recognize_response data = recognize_response (JObj ∅).
Proof.
  intros Hkey Hread Hfetch Hpath.
  rewrite (recognize_run env imageBlob key base64Image w Hkey Hread).
  unfold result_of. cbn [fst]. rewrite Hfetch. cbn [body_read].
  rewrite (recognize_response_full_path data (JStr []) Hpath).
  split; [done|]. split; [discriminate|].
  by rewrite (recognize_response_no_parts (JObj ∅)).
Qed.

(** The service answers with an empty text. *)
Lemma empty_text_gives_sentinel_witness :
  let env := Examples.browser (Some [Examples.screenshot])
               (Resolved (Some (Examples.gemini_text [])))
               (Resolved (Some (Examples.youdao_tgt Examples.NI_HAO))) in
  let w := Examples.popup_with_key (u "ABC123") in
  descend TEXT_PATH (Examples.gemini_text []) = Some (JStr [])
  /\ result_of (recognizeImageWithGemini env Examples.png (u "ABC123") w)
     = Ok (JStr NOT_RECOGNIZED_TEXT).
Proof.
  intros env w. split; [reflexivity|].
  apply (empty_text_gives_sentinel env Examples.png (u "ABC123")
           (u "data:image/png;base64,iVBORw==") (Examples.gemini_text []) w);
    reflexivity.
Defined.

(** C6 at [{"candidates":[{"content":{"parts":[]}}]}]: the five guards hold,
    the link [parts[0]] is absent, and reading [.text] off it throws; the
    handler stops with loading still true. *)
Theorem recognize_parts_without_first_element :
  let data := Examples.gemini_parts [] in
  let env := Examples.browser (Some [Examples.screenshot])
               (Resolved (Some data))
               (Resolved (Some (Examples.youdao_tgt Examples.NI_HAO))) in
  let w := Examples.popup_with_key (u "ABC123") in
  five_guards data = Ok (JArr [])
  /\ descend TEXT_PATH data = None
  /\ result_of (recognizeImageWithGemini env Examples.png (u "ABC123") w)
     = Throw TypeError
  /\ result_of (handleScreenshotTranslate env w) = Throw TypeError
  /\ loading (popup (world_of (handleScreenshotTranslate env w))) = true.
Proof. repeat split. Qed.

(** The unguarded read in general: when the five guards hold and [parts[0]]
    is undefined or null, the reader throws. *)
Lemma recognize_response_first_part_missing (d p p0 : JsVal) :
  five_guards d = Ok p -> truthy p = true ->
  get_index0 p = Ok p0 -> p0 = JUndefined \/ p0 = JNull ->
  recognize_response d = Throw TypeError.
Proof.
  intros Hg Hp H0 Hnull.
  rewrite (recognize_response_parts d p Hg Hp), H0.
  by destruct Hnull as [-> | ->].
Qed.

(** ** The translation client *)

(** C2 at [{"translateResult":[[{}]]}]: the entry [translateResult[0][0]]
    exists and has no [tgt]; [translateText] returns undefined, not the
    "translation failed" sentinel, and the handler stores it. *)
Theorem translate_entry_without_tgt :
  let data := Examples.youdao_entry (JObj ∅) in
  let env := Examples.browser (Some [Examples.screenshot])
               (Resolved (Some (Examples.gemini_text (u "Hello"))))
               (Resolved (Some data)) in
  let w := Examples.popup_with_key (u "ABC123") in
  descend [Dot TranslateResult; Index0; Index0] data = Some (JObj ∅)
  /\ descend TGT_PATH data = None
  /\ result_of (translateText env (JStr (u "Hello")) w) = Ok JUndefined
  /\ result_of (translateText env (JStr (u "Hello")) w)
     <> Ok (JStr TRANSLATE_FAILED_TEXT)
  /\ translatedText (popup (world_of (handleScreenshotTranslate env w))) = JUndefined.
Proof. repeat split. discriminate. Qed.

(** ** The run after a successful recognition *)

Lemma translate_world (env : Env) (text : JsVal) (w : World) :
  world_of (translateText env text w) = w.
Proof.
  destruct (encodeURIComponent (number_toString env) text) as [encoded|e] eqn:Henc.
  - by rewrite (translate_run env text encoded _ Henc).
  - by rewrite (translate_run_encode_error env text e _ Henc).
Qed.

Lemma handle_after_recognition (env : Env) (w : World) (imageBlob : Blob)
    (base64Image : jsstring) (data text : JsVal) :
  nonempty (apiKey (popup w)) = true ->
  result_of (getImageFromClipboard env w) = Ok (Some imageBlob) ->
  readAsDataURL env imageBlob = Some base64Image ->
  let req := gemini_request imageBlob (apiKey (popup w)) base64Image in
  fetch_result env req = Resolved (Some data) ->
  recognize_response data = Ok text ->
  let stored := update_world (SetRecognizedText text) (previewing env imageBlob w) in
  let tr := translateText env text stored in
  let before :=
    before_recognition env imageBlob w
    ++ [FileRead imageBlob; Fetch req; State (SetRecognizedText text)] in
  handleScreenshotTranslate env w =
    match result_of tr with
    | Throw e => (Throw e, stored, before ++ trace_of tr)
    | Ok translated =>
        (Ok tt,
         update_world (SetLoading false)
           (update_world (SetTranslatedText translated) stored),
         before ++ trace_of tr
         ++ [State (SetTranslatedText translated); State (SetLoading false)])
    end.
Proof.
  intros Hkey Himg Hread req Hfetch Hrec stored tr before.
  rewrite (handle_with_image env w imageBlob Hkey Himg). cbv zeta.
  rewrite (recognize_run env imageBlob _ base64Image _ Hkey Hread). cbv zeta.
  fold req. rewrite Hfetch. cbn [body_read]. rewrite Hrec.
  pose proof (translate_world env text stored) as Hw.
  subst tr before. unfold result_of, world_of, trace_of in *. cbn [fst snd].
  fold stored. revert Hw.
  destruct (translateText env text stored) as [[[translated|e] w2] t2];
    cbn [fst snd]; intros ->; by rewrite <- !app_assoc.
Qed.

(** ** Failures of the remote calls *)

Lemma encode_not_recognized (number_toString : spec_float -> jsstring) :
  encodeURIComponent number_toString (JStr NOT_RECOGNIZED_TEXT)
  = Ok NOT_RECOGNIZED_ENCODED.
Proof. reflexivity. Qed.

(** C1, amended.  Neither remote call catches anything.  In a run that
    reaches recognition, the handler returns exactly when both calls do: a
    rejected fetch or a body that is not JSON, in either call, leaves the
    function as an exception and the handler stops with loading still true.
    What is degraded to a sentinel is a parsed body that lacks a link up to
    [parts], respectively up to [translateResult[0][0]]; and [translateText]
    returns on every parsed body. *)
Theorem remote_failures_propagate (env : Env) (w : World) (imageBlob : Blob)
    (base64Image : jsstring) :
  nonempty (apiKey (popup w)) = true ->
  result_of (getImageFromClipboard env w) = Ok (Some imageBlob) ->
  readAsDataURL env imageBlob = Some base64Image ->
  let r := handleScreenshotTranslate env w in
  let outcome :=
    text ← body_read recognize_response
             (fetch_result env (gemini_request imageBlob (apiKey (popup w)) base64Image));
    encoded ← encodeURIComponent (number_toString env) text;
    body_read translate_response (fetch_result env (youdao_request encoded)) in
  result_of r = (outcome ≫= fun _ => Ok tt)
  /\ loading (popup (world_of r)) =
       match outcome with Ok _ => false | Throw _ => true end
  /\ (forall d, descend [Dot Candidates; Index0; Dot Content; Dot Parts] d = None ->
        recognize_response d = Ok (JStr NOT_RECOGNIZED_TEXT))
  /\ (forall d, descend [Dot TranslateResult; Index0; Index0] d = None ->
        translate_response d = Ok (JStr TRANSLATE_FAILED_TEXT))
  /\ (forall d, exists v, translate_response d = Ok v).
Proof.
  intros Hkey Himg Hread r outcome.
  split; [|split; [|split; [|split]]].
  3: exact recognize_response_no_parts.
  3: { intros d Hd. by rewrite translate_response_entry, Hd. }
  3: exact translate_response_total.
  all: subst r outcome; rewrite (handle_with_image env w imageBlob Hkey Himg);
    cbv zeta;
    rewrite (recognize_run env imageBlob _ base64Image _ Hkey Hread);
    cbv zeta; unfold result_of, world_of, trace_of; cbn [fst snd];
    destruct (body_read recognize_response _) as [text|e]; [|reflexivity];
    cbn [mbind Result_bind];
    destruct (encodeURIComponent (number_toString env) text) as [encoded|e] eqn:Henc;
    [ rewrite (translate_run env text encoded _ Henc); cbv zeta; cbn [fst snd];
      cbn [mbind Result_bind];
      destruct (body_read translate_response _) as [translated|e]; reflexivity
    | rewrite (translate_run_encode_error env text e _ Henc); reflexivity ].
Qed.

(** The recognition endpoint cannot be reached. *)
Lemma remote_failures_propagate_witness :
  let env := Examples.browser (Some [Examples.screenshot]) Rejected
               (Resolved (Some (Examples.youdao_tgt Examples.NI_HAO))) in
  let w := Examples.popup_with_key (u "ABC123") in
  (nonempty (apiKey (popup w)) = true
   /\ result_of (getImageFromClipboard env w) = Ok (Some Examples.png)
   /\ readAsDataURL env Examples.png = Some (u "data:image/png;base64,iVBORw=="))
  /\ result_of (handleScreenshotTranslate env w) = Throw FetchError
  /\ loading (popup (world_of (handleScreenshotTranslate env w))) = true.
Proof.
  intros env w.
  pose proof (remote_failures_propagate env w Examples.png
                (u "data:image/png;base64,iVBORw==") eq_refl eq_refl eq_refl)
    as (Hres & Hload & _).
  split; [repeat split|]. split; [exact Hres | exact Hload].
Defined.

(** C1, as stated, fails.  With the recognition fetch rejected the exception
    leaves [recognizeImageWithGemini] and the handler, no sentinel is stored
    and loading stays true; likewise for a translation body that is not
    JSON. *)
Lemma rejected_fetch_escapes :
  let w := Examples.popup_with_key (u "ABC123") in
  let env1 := Examples.browser (Some [Examples.screenshot]) Rejected
                (Resolved (Some (Examples.youdao_tgt Examples.NI_HAO))) in
  let env2 := Examples.browser (Some [Examples.screenshot])
                (Resolved (Some (Examples.gemini_text (u "Hello"))))
                (Resolved None) in
  (result_of (recognizeImageWithGemini env1 Examples.png (u "ABC123") w) = Throw FetchError
   /\ result_of (handleScreenshotTranslate env1 w) = Throw FetchError
   /\ recognizedText (popup (world_of (handleScreenshotTranslate env1 w))) = JStr []
   /\ loading (popup (world_of (handleScreenshotTranslate env1 w))) = true)
  /\ (result_of (translateText env2 (JStr (u "Hello")) w) = Throw SyntaxError
      /\ result_of (handleScreenshotTranslate env2 w) = Throw SyntaxError
      /\ translatedText (popup (world_of (handleScreenshotTranslate env2 w))) = JStr []
      /\ loading (popup (world_of (handleScreenshotTranslate env2 w))) = true).
Proof. repeat split. Qed.

(** ** From recognition to translation *)

(** C5, amended.  In a run in which [recognizeImageWithGemini] returns,
    whatever it returns is stored and is the argument of [translateText],
    with no special case; a body without [candidates] gives the "not
    recognized" sentinel, and the translation request is then sent for that
    sentinel.  The run ends with loading set back to false when
    [translateText] returns, and stops with loading still true when it
    throws. *)
Theorem translation_gets_recognized_text (env : Env) (w : World)
    (imageBlob : Blob) (base64Image : jsstring) (data text : JsVal) :
  nonempty (apiKey (popup w)) = true ->
  result_of (getImageFromClipboard env w) = Ok (Some imageBlob) ->
  readAsDataURL env imageBlob = Some base64Image ->
  let req := gemini_request imageBlob (apiKey (popup w)) base64Image in
  fetch_result env req = Resolved (Some data) ->
  recognize_response data = Ok text ->
  let r := handleScreenshotTranslate env w in
  let tr := translateText env text
              (update_world (SetRecognizedText text) (previewing env imageBlob w)) in
  recognizedText (popup (world_of r)) = text
  /\ result_of r = (result_of tr ≫= fun _ => Ok tt)
  /\ trace_of r =
       before_recognition env imageBlob w
       ++ [FileRead imageBlob; Fetch req; State (SetRecognizedText text)]
       ++ trace_of tr
       ++ match result_of tr with
          | Ok translated =>
              [State (SetTranslatedText translated); State (SetLoading false)]
          | Throw _ => []
          end
  /\ loading (popup (world_of r)) =
       match result_of tr with Ok _ => false | Throw _ => true end
  /\ (descend [Dot Candidates] data = None ->
      text = JStr NOT_RECOGNIZED_TEXT
      /\ Fetch (youdao_request NOT_RECOGNIZED_ENCODED) ∈ trace_of r).
Proof.
  intros Hkey Himg Hread req Hfetch Hrec r tr.
  pose proof (handle_after_recognition env w imageBlob base64Image data text
                Hkey Himg Hread Hfetch Hrec) as Hrun.
  cbv zeta in Hrun. fold req tr r in Hrun.
  assert (Htrace : trace_of r =
            before_recognition env imageBlob w
            ++ [FileRead imageBlob; Fetch req; State (SetRecognizedText text)]
            ++ trace_of tr
            ++ match result_of tr with
               | Ok translated =>
                   [State (SetTranslatedText translated); State (SetLoading false)]
               | Throw _ => []
               end).
  { rewrite Hrun. destruct (result_of tr); unfold trace_of at 1; cbn [snd].
    - by rewrite <- !app_assoc.
    - by rewrite app_nil_r, <- !app_assoc. }
  split; [|split; [|split; [|split]]].
  - rewrite Hrun. by destruct (result_of tr).
  - rewrite Hrun. by destruct (result_of tr).
  - exact Htrace.
  - rewrite Hrun. by destruct (result_of tr).
  - intros Hnone.
    assert (text = JStr NOT_RECOGNIZED_TEXT) as ->.
    { rewrite recognize_response_no_parts in Hrec; [congruence|].
      revert Hnone. cbn [descend].
      by destruct (present (Dot Candidates) data). }
    split; [done|]. rewrite Htrace. subst tr.
    rewrite (translate_run env _ _ _ (encode_not_recognized _)). cbv zeta.
    unfold trace_of at 1. cbn [snd].
    rewrite !elem_of_app. right. right. left. apply list_elem_of_singleton. done.
Qed.

(** Scenario 3 of the specification: the recognition body has no
    [candidates]; the translation endpoint answers. *)
Lemma translation_gets_recognized_text_witness :
  let env := Examples.browser (Some [Examples.screenshot])
               (Resolved (Some (JObj ∅)))
               (Resolved (Some (Examples.youdao_tgt Examples.NI_HAO))) in
  let w := Examples.popup_with_key (u "ABC123") in
  let r := handleScreenshotTranslate env w in
  (nonempty (apiKey (popup w)) = true
   /\ result_of (getImageFromClipboard env w) = Ok (Some Examples.png)
   /\ readAsDataURL env Examples.png = Some (u "data:image/png;base64,iVBORw==")
   /\ fetch_result env (gemini_request Examples.png (u "ABC123")
                          (u "data:image/png;base64,iVBORw=="))
      = Resolved (Some (JObj ∅))
   /\ recognize_response (JObj ∅) = Ok (JStr NOT_RECOGNIZED_TEXT))
  /\ recognizedText (popup (world_of r)) = JStr NOT_RECOGNIZED_TEXT
  /\ Fetch (youdao_request NOT_RECOGNIZED_ENCODED) ∈ trace_of r
  /\ loading (popup (world_of r)) = false.
Proof.
  intros env w r.
  pose proof (translation_gets_recognized_text env w Examples.png
                (u "data:image/png;base64,iVBORw==") (JObj ∅)
                (JStr NOT_RECOGNIZED_TEXT)
                eq_refl eq_refl eq_refl eq_refl eq_refl)
    as (Hrec & _ & _ & Hload & Hsent).
  split; [repeat split|].
  split; [exact Hrec|]. split; [exact (proj2 (Hsent eq_refl)) | exact Hload].
Defined.

(** C5, as stated, fails.  The recognition body has no [candidates], the
    sentinel is stored and the translation request is sent for it, but that
    fetch is rejected: the run does not reach its last step and loading stays
    true. *)
Lemma rejected_translation_leaves_loading :
  let env := Examples.browser (Some [Examples.screenshot])
               (Resolved (Some (JObj ∅))) Rejected in
  let w := Examples.popup_with_key (u "ABC123") in
  let r := handleScreenshotTranslate env w in
  recognizedText (popup (world_of r)) = JStr NOT_RECOGNIZED_TEXT
  /\ last (trace_of r) = Some (Fetch (youdao_request NOT_RECOGNIZED_ENCODED))
  /\ result_of r = Throw FetchError
  /\ loading (popup (world_of r)) = true.
Proof. repeat split. Qed.

(** ** Where the stored text comes from *)








(** * Further properties *)

(** ** The clipboard scan *)

Lemma scan_types_first (item : ClipboardItem) (tys : list jsstring) (w : World) :
  scan_types item tys w =
    match List.find (fun type => startsWith type (u "image/")) tys with
    | None => (Ok None, w, [])
    | Some type =>
        match getType item type with
        | Some blob => (Ok (Some blob), w, [ClipboardGetType type])
        | None => (Throw ClipboardError, w, [ClipboardGetType type])
        end
    end.
Proof.
  induction tys as [|type tys IH]; simpl; [done|].
  destruct (startsWith type (u "image/")); [|exact IH].
  unfold item_getType. by destruct (getType item type).
Qed.

Lemma scan_items_first (items : list ClipboardItem) (w : World) :
  scan_items items w =
    match first_image items with
    | None => (Ok None, w, [])
    | Some (item, type) =>
        match getType item type with
        | Some blob => (Ok (Some blob), w, [ClipboardGetType type])
        | None => (Throw ClipboardError, w, [ClipboardGetType type])
        end
    end.
Proof.
  induction items as [|item items IH]; simpl; [done|].
  unfold mbind, M_bind. rewrite scan_types_first. unfold first_image_type.
  destruct (List.find _ (types item)) as [type|].
  - destruct (getType item type); run; by rewrite ?app_nil_r.
  - run. rewrite <- IH. by destruct (scan_items items w) as [[? ?] ?].
Qed.

Lemma getImageFromClipboard_capture (env : Env) (w : World) :
  getImageFromClipboard env w = (Ok (capture env).1, w, (capture env).2).
Proof.
  unfold getImageFromClipboard, try_catch, capture, navigator_clipboard_read.
  destruct (clipboard_read env) as [items|]; [|by run].
  unfold mbind, M_bind. run. rewrite scan_items_first.
  destruct (first_image items) as [[item type]|]; [|by run].
  destruct (getType item type); by run.
Qed.

(** X1.  [getImageFromClipboard] never throws and never touches the state.
    It returns the blob of the first type tag starting with [image/] of
    the first clipboard item that has one, asking [getType] once; when that
    one [getType] or the read itself fails it shows the failure notice and
    returns null, without trying any later tag or item. *)
Theorem getImageFromClipboard_first_image (env : Env) (w : World) :
  getImageFromClipboard env w =
    match clipboard_read env with
    | None => (Ok None, w, [ClipboardRead; Alert CLIPBOARD_FAILED_MSG])
    | Some clipboardItems =>
        match first_image clipboardItems with
        | None => (Ok None, w, [ClipboardRead])
        | Some (item, type) =>
            match getType item type with
            | Some blob => (Ok (Some blob), w, [ClipboardRead; ClipboardGetType type])
            | None =>
                (Ok None, w,
                 [ClipboardRead; ClipboardGetType type; Alert CLIPBOARD_FAILED_MSG])
            end
        end
    end.
Proof.
  rewrite getImageFromClipboard_capture. unfold capture.
  destruct (clipboard_read env) as [items|]; [|done].
  destruct (first_image items) as [[item type]|]; [|done].
  by destruct (getType item type).
Qed.

(** ** Every run of the handler *)

#[local] Arguments before_recognition : simpl never.
#[local] Arguments previewing : simpl never.

Lemma handle_runs (env : Env) (w : World) :
  Run env w (handleScreenshotTranslate env w).
Proof.
  destruct (nonempty (apiKey (popup w))) eqn:Hkey.
  2:{ rewrite (handle_without_key env w Hkey). by constructor. }
  pose proof (getImageFromClipboard_capture env w) as Hcap.
  destruct (capture env) as [o tr] eqn:Hc. cbn [fst snd] in Hcap.
  assert (Himg : result_of (getImageFromClipboard env w) = Ok o) by (by rewrite Hcap).
  assert (Htr : trace_of (getImageFromClipboard env w) = tr) by (by rewrite Hcap).
  destruct o as [imageBlob|].
  2:{ rewrite (handle_without_image env w Hkey Himg), Htr. by constructor. }
  destruct (readAsDataURL env imageBlob) as [base64Image|] eqn:Hread.
  2:{ rewrite (handle_with_image env w imageBlob Hkey Himg). cbv zeta.
      rewrite (recognize_run_reader_error env imageBlob _ _ Hkey Hread).
      unfold result_of, world_of, trace_of. cbn [fst snd].
      by eapply Run_reader_error. }
  destruct (body_read recognize_response
              (fetch_result env (gemini_request imageBlob (apiKey (popup w)) base64Image)))
    as [text|e] eqn:Hrec.
  2:{ rewrite (handle_with_image env w imageBlob Hkey Himg). cbv zeta.
      rewrite (recognize_run env imageBlob _ base64Image _ Hkey Hread). cbv zeta.
      unfold result_of, world_of, trace_of. cbn [fst snd]. rewrite Hrec.
      by eapply Run_recognition_error. }
  assert (exists data,
            fetch_result env (gemini_request imageBlob (apiKey (popup w)) base64Image)
            = Resolved (Some data) /\ recognize_response data = Ok text)
    as (data & Hfetch & Hdata).
  { destruct (fetch_result env _) as [|[data|]]; try discriminate. eauto. }
  rewrite (handle_after_recognition env w imageBlob base64Image data text
             Hkey Himg Hread Hfetch Hdata).
  cbv zeta.
  destruct (encodeURIComponent (number_toString env) text) as [encoded|e] eqn:Henc.
  2:{ rewrite (translate_run_encode_error env text e _ Henc).
      unfold result_of, trace_of. cbn [fst snd]. rewrite app_nil_r.
      by eapply Run_encode_error. }
  rewrite (translate_run env text encoded _ Henc). cbv zeta.
  unfold result_of, trace_of. cbn [fst snd].
  destruct (body_read translate_response _) as [translated|e] eqn:Htrans;
    rewrite <- !app_assoc; simpl.
  - by eapply Run_complete.
  - by eapply Run_translation_error.
Qed.

(** ** The start of a run *)





Lemma capture_requests (env : Env) : requests (capture env).2 = [].
Proof.
  unfold capture.
  destruct (clipboard_read env) as [items|]; [|done].
  destruct (first_image items) as [[item type]|]; [|done].
  by destruct (getType item type).
Qed.

Lemma before_recognition_requests (env : Env) (imageBlob : Blob) (w : World) :
  requests (before_recognition env imageBlob w) = [].
Proof.
  unfold before_recognition, requests.
  rewrite getImageFromClipboard_capture, !omap_app.
  unfold trace_of. cbn [snd].
  pose proof (capture_requests env) as Hr. unfold requests in Hr.
  by rewrite Hr.
Qed.

(** X2.  The loading flag at the end of a run tells how the run ended:
    false when the handler returned, true when an exception broke it off
    (no path resets the flag after a throw). *)
Theorem loading_reset_iff_returns (env : Env) (w : World) :
  let r := handleScreenshotTranslate env w in
  loading (popup (world_of r)) =
    match result_of r with Ok _ => false | Throw _ => true end.
Proof. cbv zeta. by destruct (handle_runs env w). Qed.

(** X3.  A run sends no request, or one recognition request, or one
    recognition request followed by one translation request; the credential
    in the recognition URL is the one in memory when the run started.  The
    handler never throws before its recognition step. *)
Theorem run_requests (env : Env) (w : World) :
  let r := handleScreenshotTranslate env w in
  let key := apiKey (popup w) in
  (requests (trace_of r) = [] /\ (result_of r = Ok tt \/ result_of r = Throw ReaderError))
  \/ (exists imageBlob base64Image,
        requests (trace_of r) = [gemini_request imageBlob key base64Image]
        /\ nonempty key = true)
  \/ (exists imageBlob base64Image encoded,
        requests (trace_of r) =
          [gemini_request imageBlob key base64Image; youdao_request encoded]
        /\ nonempty key = true).
Proof.
  cbv zeta.
  destruct (handle_runs env w) as
    [Hkey|tr Hkey Hc|b tr Hkey Hc Hread|b tr b64 e Hkey Hc Hread req Hrec
    |b tr b64 text e Hkey Hc Hread req Hrec Henc
    |b tr b64 text enc e Hkey Hc Hread req Hrec Henc Htr
    |b tr b64 text enc v Hkey Hc Hread req Hrec Henc Htr];
    unfold result_of, trace_of; cbn [fst snd].
  - left. by split; [|left].
  - left. split; [|by left].
    unfold requests. rewrite !omap_app.
    pose proof (capture_requests env) as Hr. rewrite Hc in Hr.
    unfold requests in Hr. cbn [snd] in Hr. by rewrite Hr.
  - left. split; [|by right].
    unfold requests. rewrite omap_app.
    pose proof (before_recognition_requests env b w) as Hr.
    unfold requests in Hr. by rewrite Hr.
  - right. left. exists b, b64. split; [|done].
    unfold requests. rewrite omap_app.
    pose proof (before_recognition_requests env b w) as Hr.
    unfold requests in Hr. by rewrite Hr.
  - right. left. exists b, b64. split; [|done].
    unfold requests. rewrite omap_app.
    pose proof (before_recognition_requests env b w) as Hr.
    unfold requests in Hr. by rewrite Hr.
  - right. right. exists b, b64, enc. split; [|done].
    unfold requests. rewrite omap_app.
    pose proof (before_recognition_requests env b w) as Hr.
    unfold requests in Hr. by rewrite Hr.
  - right. right. exists b, b64, enc. split; [|done].
    unfold requests. rewrite omap_app.
    pose proof (before_recognition_requests env b w) as Hr.
    unfold requests in Hr. by rewrite Hr.
Qed.

Lemma handle_frame (env : Env) (w : World) :
  let w' := world_of (handleScreenshotTranslate env w) in
  apiKey (popup w') = apiKey (popup w)
  /\ apiKeyInput (popup w') = apiKeyInput (popup w)
  /\ localStorage w' = localStorage w
  /\ tab (popup w') =
       if nonempty (apiKey (popup w)) then tab (popup w) else settings.
Proof.
  cbv zeta.
  destruct (handle_runs env w) as
    [Hkey|tr Hkey Hc|b tr Hkey Hc Hread|b tr b64 e Hkey Hc Hread req Hrec
    |b tr b64 text e Hkey Hc Hread req Hrec Henc
    |b tr b64 text enc e Hkey Hc Hread req Hrec Henc Htr
    |b tr b64 text enc v Hkey Hc Hread req Hrec Henc Htr];
    rewrite Hkey; by repeat split.
Qed.

(** X4.  A run never changes the credential in memory, the text of the
    settings input or the storage, and it changes the tab only to send a
    user without a key to Settings. *)
Theorem run_keeps_credential (env : Env) (w : World) :
  let w' := world_of (handleScreenshotTranslate env w) in
  apiKey (popup w') = apiKey (popup w)
  /\ apiKeyInput (popup w') = apiKeyInput (popup w)
  /\ localStorage w' = localStorage w
  /\ tab (popup w') =
       if nonempty (apiKey (popup w)) then tab (popup w) else settings.
Proof. exact (handle_frame env w). Qed.

(** X5.  What a run does and leaves does not depend on the results, the
    preview or the loading flag it finds: two states with the same key, input,
    tab and storage give the same result, the same final state and the same
    events. *)
Theorem run_ignores_stale_results (env : Env) (w1 w2 : World) :
  apiKey (popup w1) = apiKey (popup w2) ->
  apiKeyInput (popup w1) = apiKeyInput (popup w2) ->
  tab (popup w1) = tab (popup w2) ->
  localStorage w1 = localStorage w2 ->
  handleScreenshotTranslate env w1 = handleScreenshotTranslate env w2.
Proof.
  intros Hkey Hinput Htab Hstore.
  assert (Hcleared : forall w,
    update_world (SetImageSrc None)
      (update_world (SetTranslatedText (JStr []))
         (update_world (SetRecognizedText (JStr []))
            (update_world (SetLoading true) w)))
    = {| popup := cleared (popup w); localStorage := localStorage w |}) by done.
  unfold handleScreenshotTranslate. run.
  rewrite !Hcleared, Hkey. unfold cleared.
  by rewrite Hkey, Hinput, Htab, Hstore.
Qed.

(** A run after a complete run, and the same run on a freshly opened
    popup. *)
Lemma run_ignores_stale_results_witness :
  let env := Examples.browser (Some [Examples.screenshot])
               (Resolved (Some (Examples.gemini_text (u "Hello"))))
               (Resolved (Some (Examples.youdao_tgt Examples.NI_HAO))) in
  let w := Examples.popup_with_key (u "ABC123") in
  let w' := world_of (handleScreenshotTranslate env w) in
  (apiKey (popup w') = apiKey (popup w)
   /\ apiKeyInput (popup w') = apiKeyInput (popup w)
   /\ tab (popup w') = tab (popup w)
   /\ localStorage w' = localStorage w)
  /\ recognizedText (popup w') <> recognizedText (popup w)
  /\ handleScreenshotTranslate env w' = handleScreenshotTranslate env w.
Proof.
  intros env w w'.
  split; [repeat split|]. split; [discriminate|].
  apply (run_ignores_stale_results env w' w); reflexivity.
Defined.

(** X6.  With a key, a clipboard that can be read and holds no image type
    ends the run after the capture: the only notice is the no-image notice,
    no request is sent, the results stay empty and loading is back to
    false. *)
Theorem no_image_run (env : Env) (w : World) (clipboardItems : list ClipboardItem) :
  nonempty (apiKey (popup w)) = true ->
  clipboard_read env = Some clipboardItems ->
  first_image clipboardItems = None ->
  let r := handleScreenshotTranslate env w in
  result_of r = Ok tt
  /\ trace_of r =
       CLEAR_EVENTS ++ [ClipboardRead; State (SetLoading false); Alert NO_IMAGE_MSG]
  /\ loading (popup (world_of r)) = false
  /\ imageSrc (popup (world_of r)) = None
  /\ recognizedText (popup (world_of r)) = JStr []
  /\ translatedText (popup (world_of r)) = JStr [].
Proof.
  intros Hkey Hread Hnone r. subst r.
  pose proof (getImageFromClipboard_capture env w) as Hcap.
  unfold capture in Hcap. rewrite Hread, Hnone in Hcap. cbn [fst snd] in Hcap.
  rewrite (handle_without_image env w Hkey) by (by rewrite Hcap).
  by rewrite Hcap.
Qed.

(** Scenario 2 of the specification, with text on the clipboard. *)
Lemma no_image_run_witness :
  let copied_text := {| types := [u "text/plain"; u "text/html"];
                        getType := fun _ => None |} in
  let env := Examples.browser (Some [copied_text]) Rejected Rejected in
  let w := Examples.popup_with_key (u "ABC123") in
  (nonempty (apiKey (popup w)) = true
   /\ clipboard_read env = Some [copied_text]
   /\ first_image [copied_text] = None)
  /\ result_of (handleScreenshotTranslate env w) = Ok tt
  /\ loading (popup (world_of (handleScreenshotTranslate env w))) = false.
Proof.
  intros copied_text env w.
  pose proof (no_image_run env w [copied_text] eq_refl eq_refl eq_refl)
    as (Hres & _ & Hload & _).
  split; [repeat split|]. split; [exact Hres | exact Hload].
Defined.

Lemma translate_response_full_path (d v : JsVal) :
  descend TGT_PATH d = Some v -> translate_response d = Ok v.
Proof.
  rewrite translate_response_entry. unfold TGT_PATH. cbn [descend].
  destruct (present (Dot TranslateResult) d) as [r|]; [|discriminate].
  destruct (present Index0 r) as [g|]; [|discriminate].
  destruct (present Index0 g) as [e|]; [|discriminate].
  destruct (present (Dot Tgt) e) as [v'|] eqn:Hv; [|discriminate].
  intros [= ->]. apply present_Dot in Hv as [-> ->]. done.
Qed.

(** X7.  The complete run: with a key, an image on the clipboard, a
    recognition body that holds a truthy text at
    [candidates[0].content.parts[0].text] and a translation body that holds a
    value at [translateResult[0][0].tgt], the run returns with the preview
    set to the object URL of the image, that text as the recognized text,
    that value as the translation, loading false, and exactly the two
    requests sent. *)
Theorem complete_run (env : Env) (w : World) (imageBlob : Blob)
    (base64Image encoded : jsstring) (data1 text data2 translated : JsVal) :
  nonempty (apiKey (popup w)) = true ->
  result_of (getImageFromClipboard env w) = Ok (Some imageBlob) ->
  readAsDataURL env imageBlob = Some base64Image ->
  let req := gemini_request imageBlob (apiKey (popup w)) base64Image in
  fetch_result env req = Resolved (Some data1) ->
  descend TEXT_PATH data1 = Some text ->
  truthy text = true ->
  encodeURIComponent (number_toString env) text = Ok encoded ->
  fetch_result env (youdao_request encoded) = Resolved (Some data2) ->
  descend TGT_PATH data2 = Some translated ->
  let r := handleScreenshotTranslate env w in
  result_of r = Ok tt
  /\ imageSrc (popup (world_of r)) = Some (createObjectURL env imageBlob)
  /\ recognizedText (popup (world_of r)) = text
  /\ translatedText (popup (world_of r)) = translated
  /\ loading (popup (world_of r)) = false
  /\ requests (trace_of r) = [req; youdao_request encoded].
Proof.
  intros Hkey Himg Hread req Hfetch Hpath Htext Henc Hfetch2 Hpath2 r. subst r.
  assert (Hrec : recognize_response data1 = Ok text).
  { rewrite (recognize_response_full_path data1 text Hpath). by rewrite Htext. }
  rewrite (handle_after_recognition env w imageBlob base64Image data1 text
             Hkey Himg Hread Hfetch Hrec).
  cbv zeta. rewrite (translate_run env text encoded _ Henc). cbv zeta.
  rewrite Hfetch2. cbn [body_read].
  rewrite (translate_response_full_path data2 translated Hpath2).
  unfold result_of, world_of, trace_of. cbn [fst snd].
  repeat split.
  unfold requests. rewrite !omap_app.
  pose proof (before_recognition_requests env imageBlob w) as Hr.
  unfold requests in Hr. by rewrite Hr.
Qed.

(** Scenario 4 of the specification. *)
Lemma complete_run_witness :
  let env := Examples.browser (Some [Examples.screenshot])
               (Resolved (Some (Examples.gemini_text (u "Hello"))))
               (Resolved (Some (Examples.youdao_tgt Examples.NI_HAO))) in
  let w := Examples.popup_with_key (u "ABC123") in
  let r := handleScreenshotTranslate env w in
  (nonempty (apiKey (popup w)) = true
   /\ descend TEXT_PATH (Examples.gemini_text (u "Hello")) = Some (JStr (u "Hello"))
   /\ descend TGT_PATH (Examples.youdao_tgt Examples.NI_HAO) = Some (JStr Examples.NI_HAO))
  /\ recognizedText (popup (world_of r)) = JStr (u "Hello")
  /\ translatedText (popup (world_of r)) = JStr Examples.NI_HAO
  /\ loading (popup (world_of r)) = false.
Proof.
  intros env w r.
  pose proof (complete_run env w Examples.png (u "data:image/png;base64,iVBORw==")
                (u "Hello") (Examples.gemini_text (u "Hello")) (JStr (u "Hello"))
                (Examples.youdao_tgt Examples.NI_HAO) (JStr Examples.NI_HAO)
                eq_refl eq_refl eq_refl eq_refl eq_refl eq_refl eq_refl eq_refl
                eq_refl)
    as (_ & _ & Hrec & Htr & Hload & _).
  split; [repeat split|]. split; [exact Hrec|]. split; [exact Htr | exact Hload].
Defined.

(** ** The key across sessions *)

Lemma trimStart_idempotent (s : jsstring) : trimStart (trimStart s) = trimStart s.
Proof.
  induction s as [|c s IH]; simpl; [done|].
  destruct (is_white_space c) eqn:Hc; [done|]. simpl. by rewrite Hc.
Qed.

Lemma trimStart_head (s : jsstring) (c : N) :
  head (trimStart s) = Some c -> is_white_space c = false.
Proof.
  induction s as [|c' s IH]; simpl; [done|].
  destruct (is_white_space c') eqn:Hc; [done|]. simpl. by intros [= <-].
Qed.

Lemma trimStart_snoc (s : jsstring) (c : N) :
  is_white_space c = false -> trimStart (s ++ [c]) = trimStart s ++ [c].
Proof.
  intros Hc. induction s as [|c' s IH]; simpl; [by rewrite Hc|].
  by destruct (is_white_space c').
Qed.

Lemma trimEnd_idempotent (s : jsstring) : trimEnd (trimEnd s) = trimEnd s.
Proof. unfold trimEnd. by rewrite reverse_involutive, trimStart_idempotent. Qed.

Lemma trimEnd_keeps_head (s : jsstring) (c : N) :
  is_white_space c = false -> trimEnd (c :: s) = c :: trimEnd s.
Proof.
  intros Hc. unfold trimEnd.
  by rewrite reverse_cons, (trimStart_snoc _ _ Hc), reverse_snoc.
Qed.

Lemma trim_head (s : jsstring) (c : N) :
  head (trim s) = Some c -> is_white_space c = false.
Proof.
  unfold trim. pose proof (trimStart_head s) as Hs.
  destruct (trimStart s) as [|c' t]; [discriminate|].
  rewrite (trimEnd_keeps_head t c' (Hs c' eq_refl)). intros [= <-]. by apply Hs.
Qed.

Lemma trim_last (s : jsstring) (c : N) :
  last (trim s) = Some c -> is_white_space c = false.
Proof.
  unfold trim, trimEnd. rewrite last_reverse. apply trimStart_head.
Qed.

Lemma trim_idempotent (s : jsstring) : trim (trim s) = trim s.
Proof.
  unfold trim at 1.
  assert (trimStart (trim s) = trim s) as ->; [|apply trimEnd_idempotent].
  pose proof (trim_head s) as Hs.
  destruct (trim s) as [|c t]; [done|]. simpl. by rewrite (Hs c eq_refl).
Qed.

Lemma opened_state (storage : gmap jsstring jsstring) :
  apiKey (popup (opened storage)) = default [] (storage !! GEMINI_KEY_STORAGE)
  /\ apiKeyInput (popup (opened storage)) = default [] (storage !! GEMINI_KEY_STORAGE)
  /\ localStorage (opened storage) = storage
  /\ tab (popup (opened storage)) = main
  /\ loading (popup (opened storage)) = false.
Proof.
  unfold opened, loadKeyOnMount.
  cbv [mbind M_bind result_of world_of trace_of fst snd].
  rewrite loadGeminiApiKey_run. by cbn.
Qed.

Lemma handleSaveKey_state (w : World) :
  localStorage (world_of (handleSaveKey w))
  = <[GEMINI_KEY_STORAGE := trim (apiKeyInput (popup w))]> (localStorage w)
  /\ apiKey (popup (world_of (handleSaveKey w))) = trim (apiKeyInput (popup w))
  /\ apiKeyInput (popup (world_of (handleSaveKey w))) = apiKeyInput (popup w)
  /\ tab (popup (world_of (handleSaveKey w))) = main
  /\ loading (popup (world_of (handleSaveKey w))) = loading (popup w).
Proof. done. Qed.

(** X8.  The key that [handleSaveKey] stores neither begins nor ends with
    white space, and it is what a popup opened afterwards starts with, both
    as its credential and in its settings input; saving again from there
    stores the same key. *)
Theorem saved_key_survives_reopen (w : World) :
  let saved := world_of (handleSaveKey w) in
  let key := trim (apiKeyInput (popup w)) in
  let again := opened (localStorage saved) in
  localStorage saved !! GEMINI_KEY_STORAGE = Some key
  /\ (forall c, head key = Some c \/ last key = Some c -> is_white_space c = false)
  /\ apiKey (popup again) = key
  /\ apiKeyInput (popup again) = key
  /\ localStorage (world_of (handleSaveKey again)) = localStorage saved.
Proof.
  cbv zeta.
  destruct (handleSaveKey_state w) as (Hstore & _).
  pose proof (fun w0 => proj1 (handleSaveKey_state w0)) as Hsave.
  destruct (opened_state (localStorage (world_of (handleSaveKey w))))
    as (Hk & Hi & Hl & _).
  split; [by rewrite Hstore, lookup_insert_eq|].
  split; [intros c [Hc|Hc]; [by eapply trim_head | by eapply trim_last]|].
  split; [by rewrite Hk, Hstore, lookup_insert_eq|].
  split; [by rewrite Hi, Hstore, lookup_insert_eq|].
  rewrite Hsave, Hi, Hl, Hstore, lookup_insert_eq. unfold default; cbn [from_option id].
  by rewrite trim_idempotent, insert_insert_eq.
Qed.

(** A key typed with spaces around it. *)
Lemma saved_key_survives_reopen_witness :
  let w := world_of (setApiKeyInput (u "  ABC123 ") (Examples.popup_with_key [])) in
  let saved := world_of (handleSaveKey w) in
  apiKeyInput (popup w) = u "  ABC123 "
  /\ localStorage saved !! GEMINI_KEY_STORAGE = Some (u "ABC123")
  /\ apiKey (popup (opened (localStorage saved))) = u "ABC123".
Proof.
  intros w saved. split; [reflexivity|].
  pose proof (saved_key_survives_reopen w) as (Hstored & _ & Hkey & _).
  split; [exact Hstored | exact Hkey].
Defined.

(** X9.  Without a usable key the trigger only leads to Settings: when the
    storage holds no key, or the saved input was blank, the credential is the
    empty string, and the run shows the missing-key notice, switches to
    Settings and sends nothing. *)
Theorem blank_key_leads_to_settings (env : Env) (w : World) :
  (localStorage w !! GEMINI_KEY_STORAGE = None
   \/ exists w0, w = world_of (handleSaveKey w0) /\ trim (apiKeyInput (popup w0)) = []) ->
  let fresh := opened (localStorage w) in
  let r := handleScreenshotTranslate env fresh in
  apiKey (popup fresh) = []
  /\ result_of r = Ok tt
  /\ tab (popup (world_of r)) = settings
  /\ requests (trace_of r) = []
  /\ last (trace_of r) = Some (State (SetTab settings))
  /\ Alert MISSING_KEY_MSG ∈ trace_of r.
Proof.
  intros Hblank fresh r.
  assert (Hkey : apiKey (popup fresh) = []).
  { subst fresh. rewrite (proj1 (opened_state _)). unfold jsstring in *.
    destruct Hblank as [-> | (w0 & -> & Hw0)]; [done|].
    rewrite (proj1 (handleSaveKey_state w0)).
    by rewrite lookup_insert_eq, Hw0. }
  split; [done|]. subst r.
  rewrite (handle_without_key env fresh) by (by rewrite Hkey).
  repeat split. unfold trace_of. cbn [snd].
  apply elem_of_app. right. apply list_elem_of_further, list_elem_of_here.
Qed.

(** First use: nothing stored yet. *)
Lemma blank_key_leads_to_settings_witness :
  let env := Examples.browser (Some [Examples.screenshot]) Rejected Rejected in
  let w := {| popup := initial_popup; localStorage := ∅ |} in
  localStorage w !! GEMINI_KEY_STORAGE = None
  /\ tab (popup (world_of (handleScreenshotTranslate env (opened (localStorage w)))))
     = settings.
Proof.
  intros env w. split; [reflexivity|].
  apply (blank_key_leads_to_settings env w (or_introl eq_refl)).
Defined.

(** ** The recognition request *)

Lemma startsWith_app (p s : jsstring) : startsWith (p ++ s) p = true.
Proof.
  induction p as [|c p IH]; simpl; [by destruct s|].
  by rewrite N.eqb_refl.
Qed.

Lemma after_dots_no_semicolon (seen : bool) (s : jsstring) :
  Forall (fun c => c <> 0x3B%N) s -> after_dots seen s = None.
Proof.
  intros Hs. revert seen. induction Hs as [|c s Hc _ IH]; intros seen; [done|].
  cbn [after_dots]. rewrite IH.
  assert (startsWith (c :: s) (u ";base64,") = false) as ->.
  { change (u ";base64,") with (0x3B%N :: u "base64,").
    cbn [startsWith]. apply N.eqb_neq in Hc. by rewrite Hc. }
  rewrite andb_false_r. by destruct (is_line_terminator c).
Qed.

Lemma after_dots_payload (seen : bool) (mid payload : jsstring) :
  Forall (fun c => is_line_terminator c = false) mid ->
  Forall (fun c => c <> 0x3B%N) payload ->
  seen = true \/ mid <> [] ->
  after_dots seen (mid ++ u ";base64," ++ payload) = Some payload.
Proof.
  intros Hmid Hpayload. revert seen.
  induction Hmid as [|c mid Hc _ IH]; intros seen Hseen.
  - destruct Hseen as [-> | ?]; [|done].
    change ([] ++ u ";base64," ++ payload)
      with (0x3B%N :: (u "base64," ++ payload)).
    cbn [after_dots].
    rewrite after_dots_no_semicolon.
    2:{ apply Forall_app. split; [|done]. by repeat constructor. }
    change (is_line_terminator 0x3B) with false. cbn [andb].
    change (0x3B%N :: u "base64," ++ payload) with (u ";base64," ++ payload).
    rewrite startsWith_app. by rewrite drop_app_length'.
  - change ((c :: mid) ++ u ";base64," ++ payload)
      with (c :: (mid ++ u ";base64," ++ payload)).
    cbn [after_dots]. rewrite Hc. by rewrite IH by (by left).
Qed.

(** X10.  What the recognition request carries.  When the reader gives a
    data URL [data:<type>;base64,<payload>] with a non-empty type, the
    request goes to the Gemini endpoint with the key appended as it is, and
    its body holds the blob's own MIME type, the bare payload (the whole
    prefix removed, whatever the type in it) and the fixed instruction.  A
    data URL with an empty type is not matched by the pattern and is sent
    whole. *)
Theorem recognition_request_payload (env : Env) (imageBlob : Blob)
    (key type payload : jsstring) (w : World) :
  nonempty key = true ->
  type <> [] ->
  Forall (fun c => is_line_terminator c = false) type ->
  Forall (fun c => c <> 0x3B%N) payload ->
  readAsDataURL env imageBlob = Some (u "data:" ++ type ++ u ";base64," ++ payload) ->
  requests (trace_of (recognizeImageWithGemini env imageBlob key w)) =
    [ {| url := GEMINI_ENDPOINT ++ key;
         init := Some
           {| method := u "POST";
              headers := [(u "Content-Type", u "application/json")];
              body :=
                JObj {[ u "contents" :=
                  JArr [ JObj {[ u "parts" :=
                    JArr [ JObj {[ u "inline_data" :=
                             JObj (<[ u "mime_type" := JStr (blob_type imageBlob) ]>
                                   {[ u "data" := JStr payload ]}) ]};
                           JObj {[ u "text" := JStr PROMPT_TEXT ]} ] ]} ] ]} |} |} ]
  /\ strip_data_url_prefix (u "data:" ++ u ";base64," ++ payload)
     = u "data:" ++ u ";base64," ++ payload.
Proof.
  intros Hkey Htype Hlt Hpayload Hread. split.
  - rewrite (recognize_run env imageBlob key _ w Hkey Hread). cbv zeta.
    unfold trace_of. cbn [snd requests omap list_omap].
    unfold gemini_request. do 4 f_equal.
    assert (strip_data_url_prefix (u "data:" ++ type ++ u ";base64," ++ payload)
            = payload) as ->; [|done].
    unfold strip_data_url_prefix.
    rewrite startsWith_app.
    change (drop 5 (u "data:" ++ type ++ u ";base64," ++ payload))
      with (type ++ u ";base64," ++ payload).
    by rewrite (after_dots_payload false type payload Hlt Hpayload) by (by right).
  - unfold strip_data_url_prefix.
    rewrite startsWith_app.
    change (drop 5 (u "data:" ++ u ";base64," ++ payload))
      with (0x3B%N :: (u "base64," ++ payload)).
    cbn [after_dots]. rewrite after_dots_no_semicolon.
    2:{ apply Forall_app. split; [|done]. by repeat constructor. }
    done.
Qed.

(** The reader of the test browser. *)
Lemma recognition_request_payload_witness :
  let env := Examples.browser (Some [Examples.screenshot]) Rejected Rejected in
  let w := Examples.popup_with_key (u "ABC123") in
  (nonempty (u "ABC123") = true
   /\ u "image/png" <> []
   /\ Forall (fun c => is_line_terminator c = false) (u "image/png")
   /\ Forall (fun c => c <> 0x3B%N) (u "iVBORw==")
   /\ readAsDataURL env Examples.png
      = Some (u "data:" ++ u "image/png" ++ u ";base64," ++ u "iVBORw=="))
  /\ strip_data_url_prefix (u "data:" ++ u ";base64," ++ u "iVBORw==")
     = u "data:" ++ u ";base64," ++ u "iVBORw==".
Proof.
  intros env w.
  assert (H1 : u "image/png" <> []) by discriminate.
  assert (H2 : Forall (fun c => is_line_terminator c = false) (u "image/png"))
    by (by repeat constructor).
  assert (H3 : Forall (fun c => c <> 0x3B%N) (u "iVBORw=="))
    by (by repeat constructor).
  split; [by repeat split|].
  exact (proj2 (recognition_request_payload env Examples.png (u "ABC123")
                  (u "image/png") (u "iVBORw==") w eq_refl H1 H2 H3 eq_refl)).
Defined.

(** ** Sessions *)

Lemma offers_when_src (a : Action) (src : option jsstring) :
  existsb (offers a)
    (when_src src (fun src => Div [P [TextNode PREVIEW_CAPTION]; Img src PREVIEW_ALT]))
  = false.
Proof. destruct src as [s|]; [|done]. unfold when_src. by destruct (nonempty s). Qed.

Lemma offers_when_value (a : Action) (number_toString : spec_float -> jsstring)
    (v : JsVal) (caption : jsstring) :
  existsb (offers a)
    (when_value number_toString v (fun v => Div [H4 caption; Textarea v]))
  = false.
Proof. unfold when_value. destruct (truthy v); [done|]. by destruct v. Qed.

(** The controls of the view: on Main the trigger, unless loading, and the
    settings button; on Settings the input, Save and Back. *)
Lemma offers_render (number_toString : spec_float -> jsstring) (s : PopupState)
    (a : Action) :
  offers a (render number_toString s) =
    match tab s, a with
    | main, Trigger => negb (loading s)
    | main, OpenSettings => true
    | settings, (SaveKey | BackToMain | TypeKey _) => true
    | _, _ => false
    end.
Proof.
  unfold render. cbn [offers]. rewrite existsb_app.
  destruct (tab s).
  - rewrite !existsb_app, offers_when_src, !offers_when_value.
    destruct a; cbn; by destruct (loading s).
  - by destruct a.
Qed.

(** One step of a session from a state that is loading. *)
Lemma step_while_loading (env : Env) (a : Action) (w : World) :
  loading (popup w) = true ->
  offers a (render (number_toString env) (popup w)) = true ->
  let w' := world_of (perform env a w) in
  loading (popup w') = true
  /\ imageSrc (popup w') = imageSrc (popup w)
  /\ recognizedText (popup w') = recognizedText (popup w)
  /\ translatedText (popup w') = translatedText (popup w).
Proof.
  intros Hload. rewrite offers_render.
  destruct (tab (popup w)), a; try done; rewrite ?Hload; done.
Qed.

(** X11.  Nothing the user can do resets the loading flag.  From a state
    that is loading (as a run broken off by an exception leaves it), every
    session the view allows keeps loading true, never offers the trigger
    again, and leaves the preview and the two results as they were. *)
Theorem loading_stays_stuck (steps : list (Env * Action)) (w w' : World)
    (number_toString : spec_float -> jsstring) :
  loading (popup w) = true ->
  interact steps w = Some w' ->
  loading (popup w') = true
  /\ offers Trigger (render number_toString (popup w')) = false
  /\ imageSrc (popup w') = imageSrc (popup w)
  /\ recognizedText (popup w') = recognizedText (popup w)
  /\ translatedText (popup w') = translatedText (popup w).
Proof.
  intros Hload Hsteps.
  assert (Hall : loading (popup w') = true
                 /\ imageSrc (popup w') = imageSrc (popup w)
                 /\ recognizedText (popup w') = recognizedText (popup w)
                 /\ translatedText (popup w') = translatedText (popup w)).
  { revert w Hload Hsteps. induction steps as [|[env a] steps IH]; intros w Hload.
    - by intros [= ->].
    - cbn [interact].
      destruct (offers a _) eqn:Hoffer; [|discriminate]. intros Hrest.
      destruct (step_while_loading env a w Hload Hoffer) as (H1 & H2 & H3 & H4).
      destruct (IH _ H1 Hrest) as (? & ? & ? & ?).
      repeat split; congruence. }
  destruct Hall as (H1 & H2 & H3 & H4).
  repeat split; try done.
  rewrite offers_render, H1. by destruct (tab (popup w')).
Qed.

(** After a rejected recognition fetch: the user opens Settings, saves a new
    key and comes back. *)
Lemma loading_stays_stuck_witness :
  let env := Examples.browser (Some [Examples.screenshot]) Rejected Rejected in
  let w := world_of (handleScreenshotTranslate env
                       (Examples.popup_with_key (u "ABC123"))) in
  let steps := [(env, OpenSettings); (env, TypeKey (u "XYZ789")); (env, SaveKey)] in
  loading (popup w) = true
  /\ exists w', interact steps w = Some w'
                /\ tab (popup w') = main
                /\ apiKey (popup w') = u "XYZ789"
                /\ offers Trigger (render (number_toString env) (popup w')) = false.
Proof.
  intros env w steps. split; [reflexivity|].
  eexists. split; [reflexivity|]. split; [reflexivity|]. split; [reflexivity|].
  exact (proj1 (proj2 (loading_stays_stuck steps w _ (number_toString env)
                         eq_refl eq_refl))).
Defined.

(** One step of a session keeps the credential in memory equal to the stored
    one. *)
Lemma step_keeps_sync (env : Env) (a : Action) (w : World) :
  apiKey (popup w) = default [] (localStorage w !! GEMINI_KEY_STORAGE) ->
  let w' := world_of (perform env a w) in
  apiKey (popup w') = default [] (localStorage w' !! GEMINI_KEY_STORAGE).
Proof.
  intros Hsync. destruct a; cbn [perform]; try done.
  - destruct (handle_frame env w) as (-> & _ & -> & _). done.
  - destruct (handleSaveKey_state w) as (-> & -> & _).
    by rewrite lookup_insert_eq.
Qed.

(** X12.  Throughout a session, from the opening of the popup on, the
    credential in memory is the stored key (the empty string when none is
    stored), so a recognition request always carries the key that the storage
    holds at that moment. *)
Theorem credential_in_sync (storage : gmap jsstring jsstring)
    (steps : list (Env * Action)) (w : World) :
  interact steps (opened storage) = Some w ->
  apiKey (popup w) = default [] (localStorage w !! GEMINI_KEY_STORAGE).
Proof.
  assert (Hinv : forall w0,
    apiKey (popup w0) = default [] (localStorage w0 !! GEMINI_KEY_STORAGE) ->
    interact steps w0 = Some w ->
    apiKey (popup w) = default [] (localStorage w !! GEMINI_KEY_STORAGE)).
  { induction steps as [|[env a] steps IH]; intros w0 Hsync.
    - by intros [= <-].
    - cbn [interact]. destruct (offers a _); [|discriminate].
      apply IH. by apply step_keeps_sync. }
  apply Hinv.
  destruct (opened_state storage) as (-> & _ & -> & _). done.
Qed.

(** A session that saves a key with spaces around it and then triggers a
    run. *)
Lemma credential_in_sync_witness :
  let env := Examples.browser (Some [Examples.screenshot])
               (Resolved (Some (Examples.gemini_text (u "Hello"))))
               (Resolved (Some (Examples.youdao_tgt Examples.NI_HAO))) in
  let steps := [(env, OpenSettings); (env, TypeKey (u " ABC123 ")); (env, SaveKey);
                (env, Trigger)] in
  exists w, interact steps (opened ∅) = Some w
            /\ apiKey (popup w) = u "ABC123"
            /\ localStorage w !! GEMINI_KEY_STORAGE = Some (u "ABC123")
            /\ recognizedText (popup w) = JStr (u "Hello").
Proof.
  intros env steps. eexists. split; [reflexivity|].
  pose proof (credential_in_sync ∅ steps _ eq_refl) as H.
  split; [exact H|]. split; reflexivity.
Defined.

(** ** The translation request *)

Lemma hex_digit_safe (n : N) : (n < 16)%N -> is_uri_unreserved (hex_digit n) = true.
Proof.
  intros Hn.
  assert (Hin : In n (List.map N.of_nat (seq 0 16))).
  { apply in_map_iff. exists (N.to_nat n). split; [apply N2Nat.id|].
    apply in_seq. lia. }
  clear Hn. revert n Hin. apply List.Forall_forall. by repeat constructor.
Qed.

Lemma percent_safe (b : N) :
  (b < 256)%N -> Forall (fun c => is_url_safe c = true) (percent b).
Proof.
  intros Hb. unfold percent, is_url_safe.
  repeat constructor.
  - rewrite hex_digit_safe; [done|]. by apply N.Div0.div_lt_upper_bound.
  - rewrite hex_digit_safe; [done|]. by apply N.mod_lt.
Qed.

Lemma utf8_bytes (cp : N) :
  (cp < 0x110000)%N -> Forall (fun b => (b < 256)%N) (utf8 cp).
Proof.
  intros Hcp. unfold utf8.
  assert (H64 : forall x, (x mod 0x40 < 0x40)%N) by (intros; by apply N.mod_lt).
  destruct (cp <? 0x80)%N eqn:H1; [apply N.ltb_lt in H1; repeat constructor; lia|].
  destruct (cp <? 0x800)%N eqn:H2.
  { apply N.ltb_lt in H2.
    assert (cp / 0x40 < 0x20)%N by (by apply N.Div0.div_lt_upper_bound).
    pose proof (H64 cp). repeat constructor; lia. }
  destruct (cp <? 0x10000)%N eqn:H3.
  { apply N.ltb_lt in H3.
    assert (cp / 0x1000 < 0x10)%N by (by apply N.Div0.div_lt_upper_bound).
    pose proof (H64 cp). pose proof (H64 (cp / 0x40)%N).
    repeat constructor; lia. }
  assert (cp / 0x40000 < 0x5)%N by (apply N.Div0.div_lt_upper_bound; lia).
  pose proof (H64 cp). pose proof (H64 (cp / 0x40)%N). pose proof (H64 (cp / 0x1000)%N).
  repeat constructor; lia.
Qed.

Lemma escape_safe (cp : N) :
  (cp < 0x110000)%N ->
  Forall (fun c => is_url_safe c = true) (concat (percent <$> utf8 cp)).
Proof.
  intros Hcp. apply Forall_concat, Forall_fmap.
  eapply Forall_impl; [by apply utf8_bytes|]. intros b Hb. by apply percent_safe.
Qed.

Lemma uri_encode_cons (c : N) (s : jsstring) :
  uri_encode (c :: s) =
    if is_uri_unreserved c then (c ::.) <$> uri_encode s
    else if is_low_surrogate c then None
    else if is_high_surrogate c then
      match s with
      | d :: s' =>
          if is_low_surrogate d
          then
            let cp := (0x10000 + (c - 0xD800) * 0x400 + (d - 0xDC00))%N in
            (concat (percent <$> utf8 cp) ++.) <$> uri_encode s'
          else None
      | [] => None
      end
    else (concat (percent <$> utf8 c) ++.) <$> uri_encode s.
Proof. done. Qed.

Lemma uri_encode_safe (s enc : jsstring) :
  Forall (fun c => (c < 0x10000)%N) s ->
  uri_encode s = Some enc ->
  Forall (fun c => is_url_safe c = true) enc.
Proof.
  revert enc.
  assert (Hboth : (forall enc, Forall (fun c => (c < 0x10000)%N) s ->
                     uri_encode s = Some enc ->
                     Forall (fun c => is_url_safe c = true) enc)
                  /\ (forall c enc, Forall (fun c => (c < 0x10000)%N) (c :: s) ->
                        uri_encode (c :: s) = Some enc ->
                        Forall (fun c => is_url_safe c = true) enc)).
  { induction s as [|d s [IH1 IH2]].
    - split; [by intros enc _ [= <-]|].
      intros c enc Hc. apply Forall_cons in Hc as [Hc _]. rewrite uri_encode_cons.
      destruct (is_uri_unreserved c) eqn:Hu.
      { intros [= <-]. repeat constructor. unfold is_url_safe. by rewrite Hu. }
      destruct (is_low_surrogate c); [discriminate|].
      destruct (is_high_surrogate c); [discriminate|].
      simpl. intros [= <-]. rewrite app_nil_r.
      apply escape_safe. lia.
    - split; [by apply IH2|].
      intros c enc Hall. apply Forall_cons in Hall as [Hc Hds].
      pose proof Hds as Hds'. apply Forall_cons in Hds' as [Hd Hs].
      rewrite uri_encode_cons.
      destruct (is_uri_unreserved c) eqn:Hu.
      { destruct (uri_encode (d :: s)) as [e|] eqn:He; [|discriminate].
        intros [= <-]. constructor; [unfold is_url_safe; by rewrite Hu|].
        by apply (IH2 d). }
      destruct (is_low_surrogate c); [discriminate|].
      destruct (is_high_surrogate c) eqn:Hhigh.
      { destruct (is_low_surrogate d) eqn:Hlow; [|discriminate].
        destruct (uri_encode s) as [e|] eqn:He; [|discriminate].
        intros [= <-]. apply Forall_app. split; [|by apply IH1].
        apply escape_safe.
        unfold is_high_surrogate in Hhigh. unfold is_low_surrogate in Hlow.
        apply andb_true_iff in Hhigh as [? ?%N.leb_le].
        apply andb_true_iff in Hlow as [? ?%N.leb_le]. lia. }
      destruct (uri_encode (d :: s)) as [e|] eqn:He; [|discriminate].
      intros [= <-]. apply Forall_app. split; [|by apply (IH2 d)].
      apply escape_safe. lia. }
  intros enc. apply Hboth.
Qed.

(** X13.  [translateText] on a string leaves the state alone and either
    throws before sending anything (the string holds an unpaired surrogate),
    or sends exactly one request, without options, whose URL is the Youdao
    endpoint followed by URL-safe characters only (unreserved characters and
    percent escapes), so that the text cannot add or end a query
    parameter. *)
Theorem translation_request_is_escaped (env : Env) (s : jsstring) (w : World) :
  Forall (fun c => (c < 0x10000)%N) s ->
  let r := translateText env (JStr s) w in
  world_of r = w
  /\ match uri_encode s with
     | None => result_of r = Throw URIError /\ trace_of r = []
     | Some encoded =>
         trace_of r = [Fetch {| url := YOUDAO_ENDPOINT ++ encoded; init := None |}]
         /\ Forall (fun c => is_url_safe c = true) encoded
     end.
Proof.
  intros Hs r. subst r. split; [apply translate_world|].
  destruct (uri_encode s) as [encoded|] eqn:Henc.
  - rewrite (translate_run env (JStr s) encoded w).
    2:{ unfold encodeURIComponent. cbn. by rewrite Henc. }
    split; [done|]. by apply (uri_encode_safe s).
  - rewrite (translate_run_encode_error env (JStr s) URIError w); [done|].
    unfold encodeURIComponent. cbn. by rewrite Henc.
Qed.

(** A text with the characters that matter in a query string. *)
Lemma translation_request_is_escaped_witness :
  let env := Examples.browser None Rejected Rejected in
  let w := Examples.popup_with_key (u "ABC123") in
  Forall (fun c => (c < 0x10000)%N) (u "a&b=c #d")
  /\ trace_of (translateText env (JStr (u "a&b=c #d")) w)
     = [Fetch {| url := YOUDAO_ENDPOINT ++ u "a%26b%3Dc%20%23d"; init := None |}].
Proof.
  intros env w.
  assert (H : Forall (fun c => (c < 0x10000)%N) (u "a&b=c #d"))
    by (by repeat constructor).
  split; [exact H|].
  exact (proj1 (proj2 (translation_request_is_escaped env (u "a&b=c #d") w H))).
Defined.

(** X14.  [recognizeImageWithGemini] never changes the state.  Without a
    key it returns the no-key sentinel at once, reading nothing and sending
    nothing; with a key it reads the blob first, stops with the reader's
    error and no request when the read fails, and otherwise sends exactly one
    request. *)
Theorem recognition_effects (env : Env) (imageBlob : Blob) (key : jsstring)
    (w : World) :
  let r := recognizeImageWithGemini env imageBlob key w in
  world_of r = w
  /\ match nonempty key, readAsDataURL env imageBlob with
     | false, _ => result_of r = Ok (JStr NO_KEY_TEXT) /\ trace_of r = []
     | true, None => result_of r = Throw ReaderError /\ trace_of r = [FileRead imageBlob]
     | true, Some base64Image =>
         trace_of r =
           [FileRead imageBlob; Fetch (gemini_request imageBlob key base64Image)]
     end.
Proof.
  cbv zeta. destruct (nonempty key) eqn:Hkey.
  - destruct (readAsDataURL env imageBlob) as [base64Image|] eqn:Hread.
    + by rewrite (recognize_run env imageBlob key base64Image w Hkey Hread).
    + by rewrite (recognize_run_reader_error env imageBlob key w Hkey Hread).
  - unfold recognizeImageWithGemini. by rewrite Hkey.
Qed.

Lemma recognize_response_truthy (d v : JsVal) :
  recognize_response d = Ok v -> truthy v = true.
Proof.
  rewrite recognize_response_guards. intros H.
  destruct (five_guards d AND Ok d .> Candidates .[0] .> Content .> Parts .[0] .> Text)
    as [guard|e] eqn:Hguard; [|discriminate].
  change (Ok guard ≫= _) with
    (if truthy guard
     then Ok d .> Candidates .[0] .> Content .> Parts .[0] .> Text
     else Ok (JStr NOT_RECOGNIZED_TEXT)) in H.
  destruct (truthy guard) eqn:Htruthy.
  - destruct (js_and_truthy _ _ _ Hguard Htruthy) as [_ Hb].
    rewrite Hb in H. by injection H as <-.
  - by injection H as <-.
Qed.

(** X15.  Whatever [recognizeImageWithGemini] returns is truthy: a text
    read from the response, or one of its two sentinels.  So after a run that
    got past recognition the recognized text is never empty, and
    [translateText] is never asked to translate an empty string. *)
Theorem recognized_is_never_empty (env : Env) (imageBlob : Blob)
    (key : jsstring) (w : World) (v : JsVal) :
  result_of (recognizeImageWithGemini env imageBlob key w) = Ok v ->
  truthy v = true /\ v <> JStr [].
Proof.
  intros Hres.
  assert (Htruthy : truthy v = true); [|split; [done|by intros ->]].
  destruct (nonempty key) eqn:Hkey.
  - destruct (readAsDataURL env imageBlob) as [base64Image|] eqn:Hread.
    + rewrite (recognize_run env imageBlob key base64Image w Hkey Hread) in Hres.
      cbv zeta in Hres. unfold result_of in Hres. cbn [fst] in Hres.
      destruct (fetch_result env _) as [|[data|]]; try discriminate.
      by apply (recognize_response_truthy data).
    + by rewrite (recognize_run_reader_error env imageBlob key w Hkey Hread) in Hres.
  - unfold recognizeImageWithGemini in Hres. rewrite Hkey in Hres.
    by injection Hres as <-.
Qed.

(** A response whose text is the empty string. *)
Lemma recognized_is_never_empty_witness :
  let env := Examples.browser (Some [Examples.screenshot])
               (Resolved (Some (Examples.gemini_text []))) Rejected in
  let w := Examples.popup_with_key (u "ABC123") in
  result_of (recognizeImageWithGemini env Examples.png (u "ABC123") w)
  = Ok (JStr NOT_RECOGNIZED_TEXT)
  /\ truthy (JStr NOT_RECOGNIZED_TEXT) = true.
Proof.
  intros env w. split; [reflexivity|].
  exact (proj1 (recognized_is_never_empty env Examples.png (u "ABC123") w
                  (JStr NOT_RECOGNIZED_TEXT) eq_refl)).
Defined.

(** X16.  The state a broken run leaves: the image was captured and its
    preview is set, no translation is stored, and loading is still true; the
    recognized text is stored exactly when the exception came after
    recognition (from the encoding of the text or from the translation
    call). *)
Theorem broken_run_state (env : Env) (w : World) (e : JsError) :
  let r := handleScreenshotTranslate env w in
  result_of r = Throw e ->
  nonempty (apiKey (popup w)) = true
  /\ (exists imageBlob,
        result_of (getImageFromClipboard env w) = Ok (Some imageBlob)
        /\ imageSrc (popup (world_of r)) = Some (createObjectURL env imageBlob))
  /\ translatedText (popup (world_of r)) = JStr []
  /\ loading (popup (world_of r)) = true
  /\ (recognizedText (popup (world_of r)) = JStr []
      /\ length (requests (trace_of r)) <= 1
      \/ truthy (recognizedText (popup (world_of r))) = true
         /\ exists imageBlob base64Image,
              readAsDataURL env imageBlob = Some base64Image
              /\ body_read recognize_response
                   (fetch_result env
                      (gemini_request imageBlob (apiKey (popup w)) base64Image))
                 = Ok (recognizedText (popup (world_of r)))).
Proof.
  cbv zeta. intros Hthrow.
  pose proof (getImageFromClipboard_capture env w) as Hcap.
  assert (Hbefore : forall b, requests (before_recognition env b w) = [])
    by (intros; apply before_recognition_requests).
  destruct (handle_runs env w) as
    [Hkey|tr Hkey Hc|b tr Hkey Hc Hread|b tr b64 e' Hkey Hc Hread req Hrec
    |b tr b64 text e' Hkey Hc Hread req Hrec Henc
    |b tr b64 text enc e' Hkey Hc Hread req Hrec Henc Htr
    |b tr b64 text enc v Hkey Hc Hread req Hrec Henc Htr];
    try discriminate;
    rewrite Hc in Hcap; cbn [fst snd] in Hcap;
    (split; [done|]); (split; [exists b; by rewrite Hcap|]);
    (split; [done|]); (split; [done|]);
    unfold world_of, trace_of; cbn [fst snd].
  - left. split; [done|]. unfold requests. rewrite omap_app.
    specialize (Hbefore b). unfold requests in Hbefore. rewrite Hbefore.
    cbn. lia.
  - left. split; [done|]. unfold requests. rewrite omap_app.
    specialize (Hbefore b). unfold requests in Hbefore. rewrite Hbefore.
    cbn. lia.
  - right. simpl. split; [|by exists b, b64].
    subst req. destruct (fetch_result env _) as [|[data|]]; try discriminate.
    by apply (recognize_response_truthy data).
  - right. simpl. split; [|by exists b, b64].
    subst req. destruct (fetch_result env _) as [|[data|]]; try discriminate.
    by apply (recognize_response_truthy data).
Qed.

(** The translation body is not JSON. *)
Lemma broken_run_state_witness :
  let env := Examples.browser (Some [Examples.screenshot])
               (Resolved (Some (Examples.gemini_text (u "Hello"))))
               (Resolved None) in
  let w := Examples.popup_with_key (u "ABC123") in
  let r := handleScreenshotTranslate env w in
  result_of r = Throw SyntaxError
  /\ translatedText (popup (world_of r)) = JStr []
  /\ loading (popup (world_of r)) = true.
Proof.
  intros env w r. split; [reflexivity|].
  pose proof (broken_run_state env w SyntaxError eq_refl) as (_ & _ & Ht & Hl & _).
  split; [exact Ht | exact Hl].
Defined.
